(** * UnitTester: a shallow embedding of [UnitTester.hpp]

    The C++ class [UnitTester] runs small units of code, prints a PASS or
    FAIL line for each of them on a [std::ostream] and keeps three
    [uintmax_t] counters.  This file embeds the class in Rocq and proves the
    properties its specification states.

    Modelling choices:
    - [uintmax_t] is a 64-bit unsigned integer: a [Z] whose increment wraps at
      [2^64];
    - the [std::ostream] the tester refers to is the text written so far
      together with its [fmtflags] bit mask;
    - C++ control flow with exceptions is a state monad whose computations
      complete either normally or by throwing; [try]/[catch] and the scope
      guard [local_iostream_flags] are combinators of that monad;
    - a unit under test is a callable that acts on the caller's own state
      (the [World]) and either returns a value or throws; so is the filter;
    - [operator<<] of the tested values belongs to the caller's types: it
      may write some text and then throw ([Insertable]); the printers that
      always return are the interface [Streamable];
    - [operator==], [operator<=] and the conversion to [bool] of the tested
      values are interfaces of total functions;
    - the counters are printed as [num_put] prints an unsigned integer under
      the [basefield], [showbase] and [uppercase] flags of the stream; the
      pending width and the locale of the stream are not part of the
      model. *)

From Stdlib Require Import ZArith String Ascii List Bool Lia DecimalString.
Import ListNotations.

Local Open Scope string_scope.
Local Open Scope Z_scope.

(** ** Machine integers: [uintmax_t] *)

Module UIntMax.

Definition width : Z := 64.
Definition modulus : Z := 2 ^ width.

(** [++n] on a [uintmax_t]. *)
Definition incr (n : Z) : Z := (n + 1) mod modulus.

(** The digits of an unsigned integer in base ten. *)
Definition put (n : Z) : string := NilZero.string_of_uint (N.to_uint (Z.to_N n)).

(** The digit [d] of a numeral in base eight or sixteen. *)
Definition digit_char (upper : bool) (d : N) : ascii :=
  match String.get (N.to_nat d)
          (if upper then "0123456789ABCDEF" else "0123456789abcdef") with
  | Some c => c
  | None => "?"%char
  end.

(** The digits of [n] in [base], written in front of [acc]; [n] has at most
    [fuel] digits. *)
Fixpoint numeral_aux (fuel : nat) (base : N) (upper : bool) (n : N)
  (acc : string) : string :=
  match fuel with
  | O => acc
  | S k =>
      let acc' := String (digit_char upper (n mod base)) acc in
      if (n / base =? 0)%N then acc'
      else numeral_aux k base upper (n / base) acc'
  end.

Definition numeral (base : N) (upper : bool) (n : N) : string :=
  numeral_aux (S (N.size_nat n)) base upper n "".

End UIntMax.

(** ** Characters and text *)

Definition nl : string := String (ascii_of_nat 10) EmptyString.
Definition esc : string := String (ascii_of_nat 27) EmptyString.

Definition c_red : string := esc ++ "[31m".
Definition c_green : string := esc ++ "[32m".
Definition c_reset : string := esc ++ "[0m".

(** [needle] occurs somewhere in [hay]. *)
Definition occurs_in (needle hay : string) : Prop :=
  exists before after, hay = before ++ needle ++ after.

(** The character [c] is one of those of [s]. *)
Fixpoint mentions (c : ascii) (s : string) : bool :=
  match s with
  | EmptyString => false
  | String x rest => Ascii.eqb c x || mentions c rest
  end.

(** The characters a printed counter is made of: the digits of the three
    bases and the letter of the prefix of base sixteen. *)
Definition is_digit (c : ascii) : bool :=
  mentions c "0123456789abcdefABCDEFxX".

Fixpoint all_digits (s : string) : bool :=
  match s with
  | EmptyString => true
  | String x rest => is_digit x && all_digits rest
  end.

(** The last character of [s] is a newline. *)
Fixpoint ends_with_nl (s : string) : bool :=
  match s with
  | EmptyString => false
  | String x EmptyString => Ascii.eqb x (ascii_of_nat 10)
  | String _ rest => ends_with_nl rest
  end.

(** ** The output stream *)

(** [std::ios::fmtflags] is a bit mask; the bits are those of libstdc++
    ([_S_boolalpha = 1L << 0], [_S_dec = 1L << 1], [_S_hex = 1L << 3],
    [_S_oct = 1L << 6], [_S_showbase = 1L << 9], [_S_uppercase = 1L << 14]). *)
Definition fmtflags := Z.
Definition boolalpha : fmtflags := 1.
Definition dec : fmtflags := 2.
Definition hex : fmtflags := 8.
Definition oct : fmtflags := 64.
Definition showbase : fmtflags := 512.
Definition uppercase : fmtflags := 16384.
Definition basefield : fmtflags := Z.lor (Z.lor dec oct) hex.

(** [out << n] for an unsigned integer, as [num_put] converts it: in base
    eight when the [basefield] is [oct], in base sixteen when it is [hex],
    in base ten otherwise; [showbase] puts the prefix of the base in front
    of a value that is not zero, [uppercase] makes the letters capitals. *)
Definition put_uintmax_to (fl : fmtflags) (n : Z) : string :=
  let prefixed := Z.testbit fl 9 && negb (n =? 0) in
  let upper := Z.testbit fl 14 in
  if Z.land fl basefield =? oct then
    (if prefixed then "0" else "") ++ UIntMax.numeral 8 false (Z.to_N n)
  else if Z.land fl basefield =? hex then
    (if prefixed then (if upper then "0X" else "0x") else "") ++
    UIntMax.numeral 16 upper (Z.to_N n)
  else UIntMax.put n.

Record ostream : Type := mk_ostream {
  chars : string;       (* everything written so far *)
  flags : fmtflags      (* [ios_base::flags()] *)
}.

(** ** Thrown objects *)

(** A thrown object is known by the names of its dynamic type and of the
    base classes a handler may bind it to, and by the text [what()] returns
    when it derives from [std::exception]. *)
Record exception_object : Type := mk_exception {
  caught_as : list string;
  what : string
}.

Definition std_exception : string := "std::exception".

(** [catch (E&)] takes the object iff [E] is its type or one of its bases. *)
Definition handler_matches (E : string) (e : exception_object) : bool :=
  existsb (String.eqb E) (caught_as e).

(** ** Interfaces of the tested values *)

(** [out << v], under the formatting flags of the stream, for a printer
    that always returns. *)
Class Streamable (T : Type) := put_to : fmtflags -> T -> string.

(** [out << v] for any printer: the text it writes, and the object it
    throws after that, if it does. *)
Class Insertable (T : Type) :=
  insert_to : fmtflags -> T -> string * option exception_object.

(** [a == b], with [a] of the type the unit returns and [b] of the type of
    the expected value. *)
Class EqualityComparable (A B : Type) := equal_to : A -> B -> bool.

(** [a <= b]. *)
Class LessEqComparable (A B : Type) := less_equal : A -> B -> bool.

(** [!!v]: contextual conversion to [bool]. *)
Class BoolConvertible (T : Type) := to_bool : T -> bool.

(** [bool] is printed as a word under [boolalpha], as a digit otherwise. *)
#[export] Instance bool_Streamable : Streamable bool :=
  fun fl b =>
    if Z.testbit fl 0
    then (if b then "true" else "false")
    else (if b then "1" else "0").

#[export] Instance bool_EqualityComparable : EqualityComparable bool bool :=
  Bool.eqb.

#[export] Instance bool_BoolConvertible : BoolConvertible bool := fun b => b.

(** A printer that always returns is a printer. *)
#[export] Instance Streamable_Insertable {T} `{Streamable T} : Insertable T :=
  fun fl v => (put_to fl v, None).

(** The values of the examples: one signed integer type, printed in base
    ten and compared with itself, so that no conversion between integer
    types takes place. *)
Definition put_Z (z : Z) : string :=
  if z <? 0 then "-" ++ UIntMax.put (- z) else UIntMax.put z.

#[export] Instance Z_Streamable : Streamable Z := fun _ z => put_Z z.
#[export] Instance Z_EqualityComparable : EqualityComparable Z Z := Z.eqb.
#[export] Instance Z_LessEqComparable : LessEqComparable Z Z := Z.leb.
#[export] Instance Z_BoolConvertible : BoolConvertible Z :=
  fun z => negb (z =? 0).

(** How a C++ computation completes. *)
Inductive completion (A : Type) : Type :=
| Normal (a : A)
| Throw (e : exception_object).

Arguments Normal {A} a.
Arguments Throw {A} e.

Section Tester.

(** The state of the program around the tester, on which the units under
    test and the filter act. *)
Context {World : Type}.

(** A unit under test: a callable without argument. *)
Definition Test (R : Type) : Type := World -> completion R * World.

(** [std::function<bool(std::string const&)>]; [None] is the empty function.
    Like a unit under test, the function acts on the world and returns or
    throws. *)
Definition filter_function : Type :=
  option (string -> World -> completion bool * World).

(** ** The class *)

Record UnitTester : Type := mk_UnitTester {
  out_ : ostream;
  count_pass_ : Z;
  count_fail_ : Z;
  count_skip_ : Z;
  color_output_ : bool;
  hide_pass_ : bool;
  filter_ : filter_function
}.

Record Machine : Type := mk_Machine {
  world : World;
  self : UnitTester
}.

Definition with_self (f : UnitTester -> UnitTester) (s : Machine) : Machine :=
  mk_Machine (world s) (f (self s)).

Definition with_world (w : World) (s : Machine) : Machine :=
  mk_Machine w (self s).

Definition set_out (o : ostream) (u : UnitTester) : UnitTester :=
  mk_UnitTester o (count_pass_ u) (count_fail_ u) (count_skip_ u)
                (color_output_ u) (hide_pass_ u) (filter_ u).

Definition set_count_pass (n : Z) (u : UnitTester) : UnitTester :=
  mk_UnitTester (out_ u) n (count_fail_ u) (count_skip_ u)
                (color_output_ u) (hide_pass_ u) (filter_ u).

Definition set_count_fail (n : Z) (u : UnitTester) : UnitTester :=
  mk_UnitTester (out_ u) (count_pass_ u) n (count_skip_ u)
                (color_output_ u) (hide_pass_ u) (filter_ u).

Definition set_count_skip (n : Z) (u : UnitTester) : UnitTester :=
  mk_UnitTester (out_ u) (count_pass_ u) (count_fail_ u) n
                (color_output_ u) (hide_pass_ u) (filter_ u).

Definition set_color_output (c : bool) (u : UnitTester) : UnitTester :=
  mk_UnitTester (out_ u) (count_pass_ u) (count_fail_ u) (count_skip_ u)
                c (hide_pass_ u) (filter_ u).

Definition set_hide_pass (h : bool) (u : UnitTester) : UnitTester :=
  mk_UnitTester (out_ u) (count_pass_ u) (count_fail_ u) (count_skip_ u)
                (color_output_ u) h (filter_ u).

Definition set_filter (f : filter_function) (u : UnitTester) : UnitTester :=
  mk_UnitTester (out_ u) (count_pass_ u) (count_fail_ u) (count_skip_ u)
                (color_output_ u) (hide_pass_ u) f.

(** ** Computations: state and exceptions *)

Definition M (A : Type) : Type := Machine -> completion A * Machine.

Definition ret {A} (a : A) : M A := fun s => (Normal a, s).

Definition bind {A B} (m : M A) (k : A -> M B) : M B :=
  fun s =>
    match m s with
    | (Normal a, s') => k a s'
    | (Throw e, s') => (Throw e, s')
    end.

Notation "x <- m ;; k" := (bind m (fun x => k))
  (at level 61, m at next level, right associativity).
Notation "m ;; k" := (bind m (fun _ => k))
  (at level 61, right associativity).

Definition gets {A} (f : UnitTester -> A) : M A :=
  fun s => (Normal (f (self s)), s).

Definition modify (f : UnitTester -> UnitTester) : M unit :=
  fun s => (Normal tt, with_self f s).

(** One clause of a [try] block. *)
Inductive handler (A : Type) : Type :=
| Catch (E : string) (h : exception_object -> M A)   (* [catch (E& e)] *)
| CatchAll (h : M A).                                (* [catch (...)] *)

Arguments Catch {A} E h.
Arguments CatchAll {A} h.

(** The first clause that matches handles the object; when none does, the
    object goes on to the caller. *)
Fixpoint dispatch {A} (hs : list (handler A)) (e : exception_object) : M A :=
  match hs with
  | [] => fun s => (Throw e, s)
  | Catch E h :: rest => if handler_matches E e then h e else dispatch rest e
  | CatchAll h :: _ => h
  end.

Definition try_ {A} (body : M A) (hs : list (handler A)) : M A :=
  fun s =>
    match body s with
    | (Normal a, s') => (Normal a, s')
    | (Throw e, s') => dispatch hs e s'
    end.

(** Calling a unit under test. *)
Definition call {R} (t : Test R) : M R :=
  fun s => let (r, w) := t (world s) in (r, with_world w s).

(** [out_ << text], for a string or a character. *)
Definition put_str (text : string) : M unit :=
  modify (fun u => set_out (mk_ostream (chars (out_ u) ++ text) (flags (out_ u))) u).

(** [out_ << v], for a value of the caller's type: what the printer writes
    reaches the stream, then the printer returns or throws. *)
Definition put_val {T} `{Insertable T} (v : T) : M unit :=
  fun s =>
    let (text, thrown) := insert_to (flags (out_ (self s))) v in
    (match thrown with
     | None => Normal tt
     | Some e => Throw e
     end,
     with_self
       (fun u =>
          set_out (mk_ostream (chars (out_ u) ++ text) (flags (out_ u))) u) s).

(** [out_ << n], for a counter. *)
Definition put_uintmax (n : Z) : M unit :=
  fun s => put_str (put_uintmax_to (flags (out_ (self s))) n) s.

(** [out_ << std::boolalpha], that is [setf(boolalpha)]. *)
Definition put_boolalpha : M unit :=
  modify (fun u =>
    set_out (mk_ostream (chars (out_ u)) (Z.lor (flags (out_ u)) boolalpha)) u).

(** [local_iostream_flags f(out_); body]: the constructor reads the flags,
    the destructor writes them back when the scope is left, whether [body]
    returns or throws. *)
Definition local_iostream_flags {A} (body : M A) : M A :=
  fun s =>
    let f_ := flags (out_ (self s)) in
    let (r, s') := body s in
    (r, with_self (fun u => set_out (mk_ostream (chars (out_ u)) f_) u) s').

(** ** Private members *)

Definition red_ : M string :=
  gets (fun u => if color_output_ u then c_red else "").
Definition green_ : M string :=
  gets (fun u => if color_output_ u then c_green else "").
Definition reset_ : M string :=
  gets (fun u => if color_output_ u then c_reset else "").

(** Counts a PASS and prints the pass message. *)
Definition pass_ (id : string) : M unit :=
  modify (fun u => set_count_pass (UIntMax.incr (count_pass_ u)) u) ;;
  hide <- gets hide_pass_ ;;
  if negb hide then
    g <- green_ ;; put_str g ;; put_str "☑  PASS  " ;;
    r <- reset_ ;; put_str r ;; put_str id ;; put_str nl
  else ret tt.

(** Counts a FAIL and prints the fail message. *)
Definition fail_ (id : string) : M unit :=
  modify (fun u => set_count_fail (UIntMax.incr (count_fail_ u)) u) ;;
  r <- red_ ;; put_str r ;; put_str "☒  FAIL  " ;;
  z <- reset_ ;; put_str z ;; put_str id ;; put_str nl.

(** [filter_ && !filter_(id)]: the test is filtered out.  What the filter
    throws goes on to the caller. *)
Definition filtered_out (id : string) : M bool :=
  fun s =>
    match filter_ (self s) with
    | None => (Normal false, s)
    | Some f =>
        let (r, w) := f id (world s) in
        (match r with
         | Normal b => Normal (negb b)
         | Throw e => Throw e
         end, with_world w s)
    end.

(** [{ ++count_skip_; return false; }] *)
Definition skip_ : M bool :=
  modify (fun u => set_count_skip (UIntMax.incr (count_skip_ u)) u) ;;
  ret false.

(** ** Public members *)

(** The constructor. *)
Definition UnitTester_new (out : ostream) : UnitTester :=
  mk_UnitTester out 0 0 0 true false None.

Definition count_pass : M Z := gets count_pass_.
Definition count_fail : M Z := gets count_fail_.

Definition summary : M unit :=
  skip <- gets count_skip_ ;;
  (if 0 <? skip then
     put_uintmax skip ;; put_str " tests skipped." ;; put_str nl
   else ret tt) ;;
  pass <- gets count_pass_ ;;
  put_uintmax pass ;; put_str " tests passed." ;; put_str nl ;;
  fail <- gets count_fail_ ;;
  if 0 <? fail then
    put_uintmax fail ;; put_str " tests " ;;
    r <- red_ ;; put_str r ;; put_str "FAILED !" ;;
    z <- reset_ ;; put_str z ;; put_str nl
  else ret tt.

(** [color_output()] reads the setting; the overload [color_output(bool)]
    writes it.  The members that return [*this] return nothing here: the
    tester they give back is the one of the machine. *)
Definition color_output : M bool := gets color_output_.
Definition set_color (c : bool) : M unit := modify (set_color_output c).
Definition hide_pass : M unit := modify (set_hide_pass true).
Definition show_pass : M unit := modify (set_hide_pass false).

(** [only_if] takes a [std::function], which may be the empty one. *)
Definition only_if (f : filter_function) : M unit := modify (set_filter f).

(** [always] swaps [filter_] with an empty function. *)
Definition always : M unit := modify (set_filter None).

Section Generic.

Context {R T : Type}.
Context `{Insertable R} `{Insertable T}.
Context `{EqualityComparable R T}.
Context `{LessEqComparable T R} `{LessEqComparable R T}.

Definition expect_value (id : string) (value : T) (t : Test R) : M bool :=
  skip <- filtered_out id ;;
  if skip then skip_ else
  try_
    (test_value <- call t ;;
     let result := equal_to test_value value in
     (if result then pass_ id
      else
        fail_ id ;;
        put_str "  expected value " ;; put_val value ;;
        put_str ", found " ;; put_val test_value ;;
        put_str " instead." ;; put_str nl) ;;
     ret result)
    [ Catch std_exception (fun e =>
        fail_ id ;;
        put_str "  expected value " ;; put_val value ;;
        put_str ", got exception: " ;; put_str (what e) ;; put_str nl ;;
        ret false);
      CatchAll (
        fail_ id ;;
        put_str "  expected value " ;; put_val value ;;
        put_str ", got exception not derived from std::exception" ;;
        put_str nl ;;
        ret false) ].

Definition expect_in_range (id : string) (min max : T) (t : Test R) : M bool :=
  skip <- filtered_out id ;;
  if skip then skip_ else
  try_
    (test_value <- call t ;;
     let result := less_equal min test_value && less_equal test_value max in
     (if result then pass_ id
      else
        fail_ id ;;
        put_str "  value " ;; put_val test_value ;;
        put_str " is not in expected range [" ;; put_val min ;;
        put_str ", " ;; put_val max ;; put_str "]" ;; put_str nl) ;;
     ret result)
    [ Catch std_exception (fun e =>
        fail_ id ;;
        put_str "  expected a value in [" ;; put_val min ;;
        put_str ", " ;; put_val max ;;
        put_str "], got exception: " ;; put_str (what e) ;; put_str nl ;;
        ret false);
      CatchAll (
        fail_ id ;;
        put_str "  expected a value in [" ;; put_val min ;;
        put_str ", " ;; put_val max ;;
        put_str "], got exception not derived from std::exception" ;;
        put_str nl ;;
        ret false) ].

End Generic.

(** The callable [[&t] { return !!t(); }]. *)
Definition not_not {R} `{BoolConvertible R} (t : Test R) : Test bool :=
  fun w =>
    let (r, w') := t w in
    (match r with
     | Normal v => Normal (negb (negb (to_bool v)))
     | Throw e => Throw e
     end, w').

Definition expect_true {R} `{BoolConvertible R} (id : string) (t : Test R)
  : M bool :=
  skip <- filtered_out id ;;
  if skip then skip_ else
  local_iostream_flags
    (put_boolalpha ;;
     expect_value id true (not_not t)).

Definition expect_false {R} `{BoolConvertible R} (id : string) (t : Test R)
  : M bool :=
  skip <- filtered_out id ;;
  if skip then skip_ else
  local_iostream_flags
    (put_boolalpha ;;
     expect_value id false (not_not t)).

Definition expect_any_exception {R} (id : string) (t : Test R) : M bool :=
  skip <- filtered_out id ;;
  if skip then skip_ else
  exception_happened <-
    try_ (call t ;; ret false)
         [ CatchAll (ret true) ] ;;
  (if exception_happened then pass_ id
   else
     fail_ id ;;
     put_str "  expected exception was not thrown." ;; put_str nl) ;;
  ret exception_happened.

(** [Except] is the template argument: the name of the expected type. *)
Definition expect_exception {R} (Except : string) (id : string) (t : Test R)
  : M bool :=
  skip <- filtered_out id ;;
  if skip then skip_ else
  happened <-
    try_ (call t ;; ret (false, false))
         [ Catch Except (fun _ => ret (true, false));
           CatchAll (ret (false, true)) ] ;;
  let exception_happened := fst happened in
  let other_exception_happened := snd happened in
  (if exception_happened then pass_ id
   else if other_exception_happened then
     fail_ id ;;
     put_str "  an exception happened but not of the correct type." ;;
     put_str nl
   else
     fail_ id ;;
     put_str "  expected exception was not thrown." ;; put_str nl) ;;
  ret exception_happened.

(** ** The handle [UnitTestNamer]

    The handle holds a reference to the tester and a copy of the id.  The
    tester it refers to is the one of the machine, so the id is all it
    carries. *)

Record UnitTestNamer : Type := mk_UnitTestNamer { id_of : string }.

(** [operator()] *)
Definition call_operator (id : string) : M UnitTestNamer :=
  ret (mk_UnitTestNamer id).

Definition namer_expect_true {R} `{BoolConvertible R}
  (n : UnitTestNamer) (t : Test R) : M bool :=
  expect_true (id_of n) t.

Definition namer_expect_false {R} `{BoolConvertible R}
  (n : UnitTestNamer) (t : Test R) : M bool :=
  expect_false (id_of n) t.

Definition namer_expect_value {R T}
  `{Insertable R} `{Insertable T} `{EqualityComparable R T}
  (n : UnitTestNamer) (value : T) (t : Test R) : M bool :=
  expect_value (id_of n) value t.

Definition namer_expect_in_range {R T}
  `{Insertable R} `{Insertable T}
  `{LessEqComparable T R} `{LessEqComparable R T}
  (n : UnitTestNamer) (min max : T) (t : Test R) : M bool :=
  expect_in_range (id_of n) min max t.

Definition namer_expect_any_exception {R}
  (n : UnitTestNamer) (t : Test R) : M bool :=
  expect_any_exception (id_of n) t.

Definition namer_expect_exception {R} (Except : string)
  (n : UnitTestNamer) (t : Test R) : M bool :=
  expect_exception Except (id_of n) t.

(** Two units under test for the examples: one returns a value, the other
    throws an object. *)
Definition returns {R} (v : R) : Test R := fun w => (Normal v, w).
Definition throws {R} (e : exception_object) : Test R := fun w => (Throw e, w).

(** ** Runs of a session *)

(** [assertion id s r]: calling one of the six assertion operations with
    the identifier [id], from the state [s], gives the completion and the
    state [r]. *)
Inductive assertion (id : string) (s : Machine)
  : completion bool * Machine -> Prop :=
| call_expect_true :
    forall R (BC : BoolConvertible R) (t : Test R),
      assertion id s (expect_true id t s)
| call_expect_false :
    forall R (BC : BoolConvertible R) (t : Test R),
      assertion id s (expect_false id t s)
| call_expect_value :
    forall R T (SR : Insertable R) (ST : Insertable T)
           (EQ : EqualityComparable R T) (value : T) (t : Test R),
      assertion id s (expect_value id value t s)
| call_expect_in_range :
    forall R T (SR : Insertable R) (ST : Insertable T)
           (LE1 : LessEqComparable T R) (LE2 : LessEqComparable R T)
           (min max : T) (t : Test R),
      assertion id s (expect_in_range id min max t s)
| call_expect_any_exception :
    forall R (t : Test R),
      assertion id s (expect_any_exception id t s)
| call_expect_exception :
    forall R Except (t : Test R),
      assertion id s (expect_exception Except id t s).

(** One call of any other public member. *)
Inductive other_call (s : Machine) : Machine -> Prop :=
| call_count_pass : other_call s (snd (count_pass s))
| call_count_fail : other_call s (snd (count_fail s))
| call_summary : other_call s (snd (summary s))
| call_color_output : other_call s (snd (color_output s))
| call_set_color : forall c, other_call s (snd (set_color c s))
| call_hide_pass : other_call s (snd (hide_pass s))
| call_show_pass : other_call s (snd (show_pass s))
| call_only_if : forall f, other_call s (snd (only_if f s))
| call_always : other_call s (snd (always s)).

(** [session n s]: [s] is reached from a freshly constructed tester by a run
    in which [n] assertion calls were made, with any number of other calls
    and of steps of the caller's own code in between. *)
Inductive session : nat -> Machine -> Prop :=
| session_new :
    forall out w, session 0 (mk_Machine w (UnitTester_new out))
| session_assertion :
    forall n s id r, session n s -> assertion id s r -> session (S n) (snd r)
| session_other :
    forall n s s', session n s -> other_call s s' -> session n s'
| session_caller :
    forall n s w, session n s -> session n (with_world w s).

(** ** What a call leaves behind *)

Inductive counter : Type := Pass | Fail | Skip.

(** The tester after one counter was incremented. *)
Definition count (c : counter) (u : UnitTester) : UnitTester :=
  match c with
  | Pass => set_count_pass (UIntMax.incr (count_pass_ u)) u
  | Fail => set_count_fail (UIntMax.incr (count_fail_ u)) u
  | Skip => set_count_skip (UIntMax.incr (count_skip_ u)) u
  end.

(** The tester after [text] was written to its stream. *)
Definition written (text : string) (u : UnitTester) : UnitTester :=
  set_out (mk_ostream (chars (out_ u) ++ text) (flags (out_ u))) u.

(** The line [pass_] prints, and the line [fail_] prints. *)
Definition pass_line (u : UnitTester) (id : string) : string :=
  if hide_pass_ u then ""
  else (if color_output_ u then c_green else "") ++ "☑  PASS  " ++
       (if color_output_ u then c_reset else "") ++ id ++ nl.

Definition fail_line (u : UnitTester) (id : string) : string :=
  (if color_output_ u then c_red else "") ++ "☒  FAIL  " ++
  (if color_output_ u then c_reset else "") ++ id ++ nl.

(** The three lines of the summary. *)
Definition skipped_line (u : UnitTester) : string :=
  put_uintmax_to (flags (out_ u)) (count_skip_ u) ++ " tests skipped." ++ nl.

Definition passed_line (u : UnitTester) : string :=
  put_uintmax_to (flags (out_ u)) (count_pass_ u) ++ " tests passed." ++ nl.

Definition failed_line (u : UnitTester) : string :=
  put_uintmax_to (flags (out_ u)) (count_fail_ u) ++ " tests " ++
  (if color_output_ u then c_red else "") ++ "FAILED !" ++
  (if color_output_ u then c_reset else "") ++ nl.

(** Exactly one of the three counters went up by one ([++]), the other two
    kept their values. *)
Definition one_counter_incremented (u u' : UnitTester) : Prop :=
  (count_pass_ u' = UIntMax.incr (count_pass_ u) /\
   count_fail_ u' = count_fail_ u /\ count_skip_ u' = count_skip_ u) \/
  (count_pass_ u' = count_pass_ u /\
   count_fail_ u' = UIntMax.incr (count_fail_ u) /\
   count_skip_ u' = count_skip_ u) \/
  (count_pass_ u' = count_pass_ u /\ count_fail_ u' = count_fail_ u /\
   count_skip_ u' = UIntMax.incr (count_skip_ u)).

Definition total (u : UnitTester) : Z :=
  count_pass_ u + count_fail_ u + count_skip_ u.

(** The text [summary] writes. *)
Definition summary_text (u : UnitTester) : string :=
  (if 0 <? count_skip_ u then skipped_line u else "") ++
  passed_line u ++
  (if 0 <? count_fail_ u then failed_line u else "").

(** The filter, asked about [id], returns in every world. *)
Definition filter_returns (u : UnitTester) (id : string) : Prop :=
  forall f, filter_ u = Some f ->
  forall w, exists b w', f id w = (Normal b, w').

(** [quiet_assertion id s r]: as [assertion id s r], for a call whose
    filter returns and whose values have printers that always return. *)
Inductive quiet_assertion (id : string) (s : Machine)
  : completion bool * Machine -> Prop :=
| quiet_expect_true :
    forall R (BC : BoolConvertible R) (t : Test R),
      filter_returns (self s) id ->
      quiet_assertion id s (expect_true id t s)
| quiet_expect_false :
    forall R (BC : BoolConvertible R) (t : Test R),
      filter_returns (self s) id ->
      quiet_assertion id s (expect_false id t s)
| quiet_expect_value :
    forall R T (SR : Streamable R) (ST : Streamable T)
           (EQ : EqualityComparable R T) (value : T) (t : Test R),
      filter_returns (self s) id ->
      quiet_assertion id s (expect_value id value t s)
| quiet_expect_in_range :
    forall R T (SR : Streamable R) (ST : Streamable T)
           (LE1 : LessEqComparable T R) (LE2 : LessEqComparable R T)
           (min max : T) (t : Test R),
      filter_returns (self s) id ->
      quiet_assertion id s (expect_in_range id min max t s)
| quiet_expect_any_exception :
    forall R (t : Test R),
      filter_returns (self s) id ->
      quiet_assertion id s (expect_any_exception id t s)
| quiet_expect_exception :
    forall R Except (t : Test R),
      filter_returns (self s) id ->
      quiet_assertion id s (expect_exception Except id t s).

(** [verdict id s r]: what a quiet call on the test [id] leaves behind.  It
    returned true, counted a PASS and wrote the PASS line; or it returned
    false, counted a FAIL and wrote the FAIL line and a diagnostic that
    starts with two spaces and ends its line; or it returned false, counted
    a skipped test and wrote nothing. *)
Definition verdict (id : string) (s : Machine)
  (r : completion bool * Machine) : Prop :=
  exists w : World,
    r = (Normal true,
         mk_Machine w (written (pass_line (self s) id) (count Pass (self s))))
    \/
    (exists diag : string,
       r = (Normal false,
            mk_Machine w
              (written (fail_line (self s) id ++ "  " ++ diag)
                 (count Fail (self s)))) /\
       ends_with_nl diag = true)
    \/
    r = (Normal false, mk_Machine w (count Skip (self s))).

(** [reckoned id s r]: what any call on the test [id] may leave behind,
    whatever the filter and the printers do.  A PASS, as in [verdict]; a
    skipped test; nothing at all, when the filter threw; or, with any
    completion but [true], the FAIL line and some text after it, and
    [count_fail_] incremented once, or twice when a printer threw inside the
    [try] block after [fail_] had run and a handler ran [fail_] again. *)
Definition reckoned (id : string) (s : Machine)
  (r : completion bool * Machine) : Prop :=
  exists w : World,
    r = (Normal true,
         mk_Machine w (written (pass_line (self s) id) (count Pass (self s))))
    \/
    (r = (Normal false, mk_Machine w (count Skip (self s))) /\
     filter_ (self s) <> None)
    \/
    (exists e, r = (Throw e, mk_Machine w (self s)) /\
               filter_ (self s) <> None)
    \/
    (exists text,
       fst r <> Normal true /\
       (snd r =
          mk_Machine w
            (written (fail_line (self s) id ++ text) (count Fail (self s)))
        \/
        snd r =
          mk_Machine w
            (written (fail_line (self s) id ++ text)
               (count Fail (count Fail (self s)))))).

(** Whether a call returned true. *)
Definition passed (r : completion bool * Machine) : bool :=
  match fst r with
  | Normal b => b
  | Throw _ => false
  end.

(** [scored p n s]: [s] is reached from a new tester by a run in which [n]
    quiet assertion calls were made, [p] of which returned true, with any
    number of other calls and of steps of the caller in between. *)
Inductive scored : nat -> nat -> Machine -> Prop :=
| scored_new :
    forall out w, scored 0 0 (mk_Machine w (UnitTester_new out))
| scored_assertion :
    forall p n s id r,
      scored p n s -> quiet_assertion id s r ->
      scored (if passed r then S p else p) (S n) (snd r)
| scored_other :
    forall p n s s', scored p n s -> other_call s s' -> scored p n s'
| scored_caller :
    forall p n s w, scored p n s -> scored p n (with_world w s).

End Tester.

Arguments Test World R : clear implicits.
Arguments filter_function World : clear implicits.
Arguments UnitTester World : clear implicits.
Arguments Machine World : clear implicits.
Arguments M World A : clear implicits.

(** ** Inputs for the examples

    The world of the examples is a number: the count of the runs of the
    unit [tick]. *)

Definition cout : ostream := mk_ostream "" 0.

Definition fresh : Machine nat := mk_Machine 0%nat (UnitTester_new cout).

(** A unit that leaves a trace in the world and returns [v]. *)
Definition tick {R} (v : R) : Test nat R := fun w => (Normal v, S w).

(** [throw std::logic_error(msg)] and [throw 42]. *)
Definition logic_error (msg : string) : exception_object :=
  mk_exception ["std::logic_error"; "std::exception"] msg.
Definition thrown_int : exception_object := mk_exception ["int"] "".

(** A filter that runs the tests named [a] only. *)
Definition only_a : string -> nat -> completion bool * nat :=
  fun id w => (Normal (String.eqb id "a"), w).

(** A filter with a state of its own: it accepts every other question. *)
Definition every_other : string -> nat -> completion bool * nat :=
  fun _ w => (Normal (Nat.even w), S w).

(** [throw std::runtime_error(msg)], and a filter that throws it. *)
Definition runtime_error (msg : string) : exception_object :=
  mk_exception ["std::runtime_error"; "std::exception"] msg.

Definition throwing_filter : string -> nat -> completion bool * nat :=
  fun _ w => (Throw (runtime_error "no filter today"), w).

(** A type of the caller whose [operator<<] throws and whose values are
    equal to no integer:
    [std::ostream& operator<<(std::ostream&, fragile)
       { throw std::runtime_error("cannot print"); }]. *)
Inductive fragile : Type := Fragile.

#[export] Instance fragile_Insertable : Insertable fragile :=
  fun _ _ => ("", Some (runtime_error "cannot print")).

#[export] Instance fragile_EqualityComparable : EqualityComparable fragile Z :=
  fun _ _ => false.

(** A stream in base sixteen: the flags of a new stream with [std::hex]. *)
Definition cout_hex : ostream := mk_ostream "" (Z.lor 4096 hex).

(** An [unsigned int] beside the [int] of the other examples.  Comparing
    the two converts the [int] to [unsigned int], modulo [2^32]. *)
Inductive unsigned_int : Type := U (n : Z).

Definition to_unsigned (z : Z) : Z := z mod 2 ^ 32.

Definition unsigned_int_Streamable : Streamable unsigned_int :=
  fun _ u => match u with U n => UIntMax.put n end.

Definition int_unsigned_LessEqComparable : LessEqComparable Z unsigned_int :=
  fun a u => match u with U v => to_unsigned a <=? v end.

Definition unsigned_int_LessEqComparable : LessEqComparable unsigned_int Z :=
  fun u b => match u with U v => v <=? to_unsigned b end.

Section Properties.

Context {World : Type}.

(** ** Text *)

Lemma append_assoc (a b c : string) : (a ++ b) ++ c = a ++ (b ++ c).
Proof. induction a as [|x a IH]; simpl; [reflexivity | now rewrite IH]. Qed.

Lemma append_nil_r (a : string) : a ++ "" = a.
Proof. induction a as [|x a IH]; simpl; [reflexivity | now rewrite IH]. Qed.

Lemma mentions_append (c : ascii) (a b : string) :
  mentions c (a ++ b) = mentions c a || mentions c b.
Proof.
  induction a as [|x a IH]; simpl; [reflexivity|].
  now rewrite IH, orb_assoc.
Qed.

Lemma occurs_in_mentions (c : ascii) (needle hay : string) :
  occurs_in needle hay -> mentions c needle = true -> mentions c hay = true.
Proof.
  intros (before & after & ->) Hc.
  rewrite !mentions_append, Hc. now rewrite orb_true_r.
Qed.

Lemma all_digits_mentions (c : ascii) (s : string) :
  all_digits s = true -> is_digit c = false -> mentions c s = false.
Proof.
  intros Hs Hc. induction s as [|x s IH]; simpl in *; [reflexivity|].
  apply andb_true_iff in Hs as [Hx Hs]. rewrite (IH Hs), orb_false_r.
  destruct (Ascii.eqb_spec c x) as [->|]; congruence.
Qed.

Lemma all_digits_append (a b : string) :
  all_digits (a ++ b) = all_digits a && all_digits b.
Proof.
  induction a as [|x a IH]; simpl; [reflexivity|].
  now rewrite IH, andb_assoc.
Qed.

Lemma string_of_uint_all_digits (d : Decimal.uint) :
  all_digits (NilEmpty.string_of_uint d) = true.
Proof. induction d; simpl; auto. Qed.

Lemma put_all_digits (n : Z) : all_digits (UIntMax.put n) = true.
Proof.
  unfold UIntMax.put, NilZero.string_of_uint.
  destruct (N.to_uint (Z.to_N n)) eqn:E; try reflexivity;
    rewrite <- E; apply string_of_uint_all_digits.
Qed.

Lemma digit_char_is_digit (upper : bool) (d : N) :
  (d < 16)%N -> is_digit (UIntMax.digit_char upper d) = true.
Proof.
  intros Hd. unfold UIntMax.digit_char.
  assert (Hk : (N.to_nat d < 16)%nat) by lia.
  revert Hk. generalize (N.to_nat d). intros k Hk.
  do 16 (destruct k as [|k]; [destruct upper; reflexivity|]). lia.
Qed.

Lemma numeral_aux_all_digits (fuel : nat) (base : N) (upper : bool) (n : N)
  (acc : string) :
  (0 < base <= 16)%N ->
  all_digits acc = true ->
  all_digits (UIntMax.numeral_aux fuel base upper n acc) = true.
Proof.
  intros Hb. revert n acc.
  induction fuel as [|k IH]; intros n acc Hacc; simpl; [exact Hacc|].
  assert (Hd : is_digit (UIntMax.digit_char upper (n mod base)) = true).
  { apply digit_char_is_digit.
    pose proof (N.mod_upper_bound n base). lia. }
  destruct (n / base =? 0)%N.
  - simpl. now rewrite Hd, Hacc.
  - apply IH. simpl. now rewrite Hd, Hacc.
Qed.

(** Whatever the flags, a printed counter is made of digits, of the letters
    of base sixteen and of the letter of its prefix. *)
Lemma put_uintmax_to_all_digits (fl : fmtflags) (n : Z) :
  all_digits (put_uintmax_to fl n) = true.
Proof.
  unfold put_uintmax_to, UIntMax.numeral.
  destruct (Z.land fl basefield =? oct);
    [|destruct (Z.land fl basefield =? hex)].
  - rewrite all_digits_append, numeral_aux_all_digits by (reflexivity || lia).
    destruct (Z.testbit fl 9 && negb (n =? 0)); reflexivity.
  - rewrite all_digits_append, numeral_aux_all_digits by (reflexivity || lia).
    destruct (Z.testbit fl 9 && negb (n =? 0)), (Z.testbit fl 14);
      reflexivity.
  - apply put_all_digits.
Qed.

(** Zero is printed [0] in every base, with or without [showbase]. *)
Lemma put_uintmax_to_zero (fl : fmtflags) : put_uintmax_to fl 0 = "0".
Proof.
  unfold put_uintmax_to. cbn [Z.eqb negb]. rewrite andb_false_r.
  destruct (Z.land fl basefield =? oct);
    [|destruct (Z.land fl basefield =? hex)];
    try destruct (Z.testbit fl 14); reflexivity.
Qed.

(** ** Symbolic execution of the members *)

Ltac open_machine s :=
  let w := fresh "w" in
  let txt := fresh "txt" in
  let fl := fresh "fl" in
  let np := fresh "np" in
  let nf := fresh "nf" in
  let ns := fresh "ns" in
  let col := fresh "col" in
  let hid := fresh "hid" in
  let flt := fresh "flt" in
  destruct s as [w [[txt fl] np nf ns col hid flt]].

Ltac run :=
  cbv [bind ret gets modify try_ dispatch call put_str put_val put_uintmax
       insert_to Streamable_Insertable
       put_boolalpha local_iostream_flags red_ green_ reset_ pass_ fail_
       filtered_out skip_ with_self with_world
       set_out set_count_pass set_count_fail set_count_skip
       set_color_output set_hide_pass set_filter
       count written pass_line fail_line
       self world out_ chars flags count_pass_ count_fail_ count_skip_
       color_output_ hide_pass_ filter_ fst snd negb] in *.

(** The answers of the filter: yes, no, or an exception. *)
Ltac on_filter flt f id w E :=
  destruct flt as [f|]; [destruct (f id w) as [[[|]|?ex] ?w] eqn:E|].

(** The printers and the handlers at work in the goal: each printer
    returns or throws, and does the same when it is asked again. *)
Ltac on_printers :=
  repeat (match goal with
          | Hp : ?p = _ |- context [match ?p with (_, _) => _ end] =>
              rewrite Hp
          | |- context [if handler_matches ?E ?x then _ else _] =>
              destruct (handler_matches E x)
          | |- context [match ?p with (_, _) => _ end] =>
              let Ep := fresh "Ep" in
              destruct p as [?tx [?ex|]] eqn:Ep
          end; run).

Ltac same_text := rewrite ?append_assoc, ?append_nil_r; reflexivity.

(** *** Any call *)

Ltac solve_reckoned :=
  unfold reckoned; run; rewrite ?append_assoc; eexists;
  first
    [ left; rewrite ?append_nil_r; reflexivity
    | right; left; split; [reflexivity | discriminate]
    | right; right; left; eexists; split; [reflexivity | discriminate]
    | right; right; right; eexists; split;
      [ discriminate
      | first [ left; rewrite ?append_assoc; reflexivity
              | right; rewrite ?append_assoc; reflexivity ] ] ].

Lemma expect_value_reckoned
  {R T} `{Insertable R} `{Insertable T} `{EqualityComparable R T}
  (id : string) (value : T) (t : Test World R) (s : Machine World) :
  reckoned id s (expect_value id value t s).
Proof.
  open_machine s. unfold expect_value. run.
  on_filter flt f id w E; try solve_reckoned;
    destruct (t _) as [[v|e] w'];
    try destruct (equal_to v value);
    on_printers; try destruct hid; solve_reckoned.
Qed.

Lemma expect_in_range_reckoned
  {R T} `{Insertable R} `{Insertable T}
  `{LessEqComparable T R} `{LessEqComparable R T}
  (id : string) (min max : T) (t : Test World R) (s : Machine World) :
  reckoned id s (expect_in_range id min max t s).
Proof.
  open_machine s. unfold expect_in_range. run.
  on_filter flt f id w E; try solve_reckoned;
    destruct (t _) as [[v|e] w'];
    try destruct (less_equal min v && less_equal v max)%bool;
    on_printers; try destruct hid; solve_reckoned.
Qed.

Lemma expect_any_exception_reckoned
  {R} (id : string) (t : Test World R) (s : Machine World) :
  reckoned id s (expect_any_exception id t s).
Proof.
  open_machine s. unfold expect_any_exception. run.
  on_filter flt f id w E; try solve_reckoned;
    destruct (t _) as [[v|e] w'];
    try destruct hid; solve_reckoned.
Qed.

Lemma expect_exception_reckoned
  {R} (Except id : string) (t : Test World R) (s : Machine World) :
  reckoned id s (expect_exception Except id t s).
Proof.
  open_machine s. unfold expect_exception. run.
  on_filter flt f id w E; try solve_reckoned;
    destruct (t _) as [[v|e] w'];
    try destruct (handler_matches Except e);
    try destruct hid; solve_reckoned.
Qed.

(** The scope guard around a call: the flags set inside the scope are gone
    when the scope is left, however the call completes. *)
Lemma local_boolalpha_reckoned (id : string) (body : M World bool)
  (s : Machine World) :
  (forall s1, reckoned id s1 (body s1)) ->
  reckoned id s (local_iostream_flags (bind put_boolalpha (fun _ => body)) s).
Proof.
  intros Hbody. open_machine s. unfold local_iostream_flags, put_boolalpha.
  run.
  match goal with |- context [body ?s1] =>
    destruct (Hbody s1)
      as (w' & [-> | [[-> Hn] | [(e & -> & Hn) | (text & Hc & Hs)]]])
  end; run.
  - exists w'. left. reflexivity.
  - exists w'. right. left. split; [reflexivity | exact Hn].
  - exists w'. right. right. left. exists e. split; [reflexivity | exact Hn].
  - match goal with |- context [body ?s1] =>
      destruct (body s1) as [c s'] end.
    cbn [fst snd] in Hc, Hs. exists w'. right. right. right. exists text.
    split; [exact Hc|].
    destruct Hs as [-> | ->]; [left | right]; reflexivity.
Qed.

(** The filter check in front of a call. *)
Lemma filtered_reckoned (id : string) (body : M World bool)
  (s : Machine World) :
  (forall s1, self s1 = self s -> reckoned id s1 (body s1)) ->
  reckoned id s
    (bind (filtered_out id) (fun skip => if skip then skip_ else body) s).
Proof.
  intros Hbody. open_machine s.
  unfold bind at 1, filtered_out. cbn [self world filter_].
  on_filter flt f id w E; cbn [negb with_world self];
    try (match goal with |- context [body ?s1] =>
           exact (Hbody s1 eq_refl) end);
    solve_reckoned.
Qed.

Lemma expect_true_reckoned
  {R} `{BoolConvertible R} (id : string) (t : Test World R)
  (s : Machine World) :
  reckoned id s (expect_true id t s).
Proof.
  unfold expect_true. apply filtered_reckoned. intros s1 _.
  apply local_boolalpha_reckoned. intros s2. apply expect_value_reckoned.
Qed.

Lemma expect_false_reckoned
  {R} `{BoolConvertible R} (id : string) (t : Test World R)
  (s : Machine World) :
  reckoned id s (expect_false id t s).
Proof.
  unfold expect_false. apply filtered_reckoned. intros s1 _.
  apply local_boolalpha_reckoned. intros s2. apply expect_value_reckoned.
Qed.

Lemma assertion_reckoned (id : string) (s : Machine World)
  (r : completion bool * Machine World) :
  assertion id s r -> reckoned id s r.
Proof.
  intros [R BC t|R BC t|R T SR ST EQ v t|R T SR ST L1 L2 a b t|R t|R E t].
  - apply expect_true_reckoned.
  - apply expect_false_reckoned.
  - apply expect_value_reckoned.
  - apply expect_in_range_reckoned.
  - apply expect_any_exception_reckoned.
  - apply expect_exception_reckoned.
Qed.

(** What every call leaves of the tester: its configuration, the flags of
    its stream, and the text that was there. *)
Lemma reckoned_frame (id : string) (s : Machine World)
  (r : completion bool * Machine World) :
  reckoned id s r ->
  flags (out_ (self (snd r))) = flags (out_ (self s)) /\
  color_output_ (self (snd r)) = color_output_ (self s) /\
  hide_pass_ (self (snd r)) = hide_pass_ (self s) /\
  filter_ (self (snd r)) = filter_ (self s) /\
  exists text, chars (out_ (self (snd r))) = chars (out_ (self s)) ++ text.
Proof.
  intros (w & [-> | [[-> _] | [(e & -> & _) | (text & _ & [-> | ->])]]]);
    cbn; repeat split; try (eexists; reflexivity).
  exists "". now rewrite append_nil_r.
  exists "". now rewrite append_nil_r.
Qed.

(** *** A quiet call *)

Lemma ends_with_nl_append (a b : string) :
  ends_with_nl b = true -> ends_with_nl (a ++ b) = true.
Proof.
  intros Hb. induction a as [|x a IH]; simpl; [exact Hb|].
  destruct (a ++ b) eqn:E; [|exact IH].
  destruct a, b; simpl in *; discriminate.
Qed.

Lemma ends_with_nl_cons (x : ascii) (s : string) :
  ends_with_nl s = true -> ends_with_nl (String x s) = true.
Proof. apply (ends_with_nl_append (String x EmptyString)). Qed.

Ltac ends_line :=
  solve [ repeat first [ reflexivity
                       | apply ends_with_nl_append
                       | apply ends_with_nl_cons ] ].

Ltac solve_verdict :=
  unfold verdict; run; rewrite ?append_assoc; eexists;
  first [ left; rewrite ?append_nil_r; reflexivity
        | right; right; reflexivity
        | right; left; eexists; split;
          [rewrite ?append_assoc; cbn [append]; reflexivity | ends_line] ].

(** The answers of a filter that returns: yes or no. *)
Ltac on_quiet_filter Hq flt f id w E :=
  destruct flt as [f|];
  [ destruct (Hq f eq_refl w) as ([|] & ?w & E); rewrite E | ].

Lemma expect_value_verdict
  {R T} `{Streamable R} `{Streamable T} `{EqualityComparable R T}
  (id : string) (value : T) (t : Test World R) (s : Machine World) :
  filter_returns (self s) id ->
  verdict id s (expect_value id value t s).
Proof.
  intros Hq. open_machine s. unfold expect_value. cbn in Hq. run.
  on_quiet_filter Hq flt f id w E; try solve_verdict;
    destruct (t _) as [[v|e] w'];
    try destruct (equal_to v value);
    try destruct (handler_matches std_exception e);
    try destruct hid; solve_verdict.
Qed.

Lemma expect_in_range_verdict
  {R T} `{Streamable R} `{Streamable T}
  `{LessEqComparable T R} `{LessEqComparable R T}
  (id : string) (min max : T) (t : Test World R) (s : Machine World) :
  filter_returns (self s) id ->
  verdict id s (expect_in_range id min max t s).
Proof.
  intros Hq. open_machine s. unfold expect_in_range. cbn in Hq. run.
  on_quiet_filter Hq flt f id w E; try solve_verdict;
    destruct (t _) as [[v|e] w'];
    try destruct (less_equal min v && less_equal v max)%bool;
    try destruct (handler_matches std_exception e);
    try destruct hid; solve_verdict.
Qed.

Lemma expect_any_exception_verdict
  {R} (id : string) (t : Test World R) (s : Machine World) :
  filter_returns (self s) id ->
  verdict id s (expect_any_exception id t s).
Proof.
  intros Hq. open_machine s. unfold expect_any_exception. cbn in Hq. run.
  on_quiet_filter Hq flt f id w E; try solve_verdict;
    destruct (t _) as [[v|e] w'];
    try destruct hid; solve_verdict.
Qed.

Lemma expect_exception_verdict
  {R} (Except id : string) (t : Test World R) (s : Machine World) :
  filter_returns (self s) id ->
  verdict id s (expect_exception Except id t s).
Proof.
  intros Hq. open_machine s. unfold expect_exception. cbn in Hq. run.
  on_quiet_filter Hq flt f id w E; try solve_verdict;
    destruct (t _) as [[v|e] w'];
    try destruct (handler_matches Except e);
    try destruct hid; solve_verdict.
Qed.

Lemma local_boolalpha_verdict (id : string) (body : M World bool)
  (s : Machine World) :
  (forall s1, filter_ (self s1) = filter_ (self s) -> verdict id s1 (body s1)) ->
  verdict id s (local_iostream_flags (bind put_boolalpha (fun _ => body)) s).
Proof.
  intros Hbody. open_machine s. unfold local_iostream_flags, put_boolalpha.
  run.
  match goal with |- context [body ?s1] =>
    destruct (Hbody s1 eq_refl) as (w' & [-> | [(diag & -> & Hd) | ->]]) end;
    run; exists w';
    [ left | right; left; exists diag; split | right; right ];
    solve [reflexivity | assumption].
Qed.

Lemma filtered_verdict (id : string) (body : M World bool)
  (s : Machine World) :
  filter_returns (self s) id ->
  (forall s1, self s1 = self s -> verdict id s1 (body s1)) ->
  verdict id s
    (bind (filtered_out id) (fun skip => if skip then skip_ else body) s).
Proof.
  intros Hq Hbody. open_machine s.
  unfold bind at 1, filtered_out. cbn in Hq. cbn [self world filter_].
  on_quiet_filter Hq flt f id w E; cbn [negb with_world self];
    try (match goal with |- context [body ?s1] =>
           exact (Hbody s1 eq_refl) end).
  solve_verdict.
Qed.

Lemma expect_true_verdict
  {R} `{BoolConvertible R} (id : string) (t : Test World R)
  (s : Machine World) :
  filter_returns (self s) id ->
  verdict id s (expect_true id t s).
Proof.
  intros Hq. unfold expect_true. apply filtered_verdict; [exact Hq|].
  intros s1 E1. apply local_boolalpha_verdict. intros s2 E2.
  apply expect_value_verdict. unfold filter_returns. now rewrite E2, E1.
Qed.

Lemma expect_false_verdict
  {R} `{BoolConvertible R} (id : string) (t : Test World R)
  (s : Machine World) :
  filter_returns (self s) id ->
  verdict id s (expect_false id t s).
Proof.
  intros Hq. unfold expect_false. apply filtered_verdict; [exact Hq|].
  intros s1 E1. apply local_boolalpha_verdict. intros s2 E2.
  apply expect_value_verdict. unfold filter_returns. now rewrite E2, E1.
Qed.

Lemma quiet_assertion_verdict (id : string) (s : Machine World)
  (r : completion bool * Machine World) :
  quiet_assertion id s r -> verdict id s r.
Proof.
  intros [R BC t Hq|R BC t Hq|R T SR ST EQ v t Hq
         |R T SR ST L1 L2 a b t Hq|R t Hq|R E t Hq].
  - now apply expect_true_verdict.
  - now apply expect_false_verdict.
  - now apply expect_value_verdict.
  - now apply expect_in_range_verdict.
  - now apply expect_any_exception_verdict.
  - now apply expect_exception_verdict.
Qed.

(** A quiet call is a call. *)
Lemma quiet_assertion_assertion (id : string) (s : Machine World)
  (r : completion bool * Machine World) :
  quiet_assertion id s r -> assertion id s r.
Proof.
  intros [R BC t Hq|R BC t Hq|R T SR ST EQ v t Hq
         |R T SR ST L1 L2 a b t Hq|R t Hq|R E t Hq]; constructor.
Qed.

(** The filter check, when the filter rejects the id and when it does not. *)
Lemma filtered_reject (id : string) (body : M World bool) (s : Machine World)
  (f : string -> World -> completion bool * World) (w : World) :
  filter_ (self s) = Some f ->
  f id (world s) = (Normal false, w) ->
  bind (filtered_out id) (fun skip => if skip then skip_ else body) s =
    (Normal false, mk_Machine w (count Skip (self s))).
Proof.
  intros Hf Hid. unfold bind at 1, filtered_out. rewrite Hf, Hid.
  reflexivity.
Qed.

Lemma filtered_out_self (id : string) (s s1 : Machine World)
  (c : completion bool) :
  filtered_out id s = (c, s1) -> s1 = mk_Machine (world s1) (self s).
Proof.
  unfold filtered_out. destruct (filter_ (self s)) as [f|].
  - destruct (f id (world s)) as [a w]. intros E. injection E as _ <-.
    reflexivity.
  - intros E. injection E as _ <-. now destruct s.
Qed.

Lemma filtered_accept (id : string) (body : M World bool) (s s1 : Machine World) :
  filtered_out id s = (Normal false, s1) ->
  bind (filtered_out id) (fun skip => if skip then skip_ else body) s =
    body (mk_Machine (world s1) (self s)).
Proof.
  intros Hf. unfold bind at 1. rewrite Hf.
  now rewrite <- (filtered_out_self _ _ _ _ Hf).
Qed.

(** ** Counters *)

Lemma incr_small (n : Z) :
  0 <= n < UIntMax.modulus - 1 -> UIntMax.incr n = n + 1.
Proof. intros Hn. unfold UIntMax.incr. apply Z.mod_small. lia. Qed.

Lemma summary_run (s : Machine World) :
  summary s = (Normal tt, with_self (written (summary_text (self s))) s).
Proof.
  open_machine s. unfold summary, summary_text, skipped_line, passed_line,
    failed_line. run.
  destruct (0 <? ns), (0 <? nf); run;
    rewrite ?append_assoc, ?append_nil_r; reflexivity.
Qed.

Lemma other_call_counters (s s' : Machine World) :
  other_call s s' ->
  count_pass_ (self s') = count_pass_ (self s) /\
  count_fail_ (self s') = count_fail_ (self s) /\
  count_skip_ (self s') = count_skip_ (self s).
Proof.
  intros [ | | | |c| | |f| ]; try (cbn; intuition; fail).
  rewrite summary_run. cbn. intuition.
Qed.

(** Before the first assertion, the three counters are zero. *)
Lemma session_zero_counters (n : nat) (s : Machine World) :
  session n s ->
  n = 0%nat ->
  count_pass_ (self s) = 0 /\ count_fail_ (self s) = 0 /\
  count_skip_ (self s) = 0.
Proof.
  induction 1 as [out w|n s id r Hs IH Ha|n s s' Hs IH Ho|n s w Hs IH];
    intros Hn.
  - cbn. auto.
  - discriminate.
  - destruct (other_call_counters _ _ Ho) as (-> & -> & ->). auto.
  - cbn. auto.
Qed.

(** ** The properties of the specification *)

(** C3.  When a filter is set and returns false for the id, a call of any of
    the six assertion operations completes with [false]; the machine it
    leaves is the one the filter left, with [count_skip_] incremented:
    [count_pass_], [count_fail_] and the stream are as before, and the unit
    under test, whatever it is, had no part in the result. *)
Theorem C3_filtered_out_is_skipped (id : string) (s : Machine World)
  (r : completion bool * Machine World)
  (f : string -> World -> completion bool * World) (w : World) :
  assertion id s r ->
  filter_ (self s) = Some f ->
  f id (world s) = (Normal false, w) ->
  r = (Normal false, mk_Machine w (count Skip (self s))) /\
  count_skip_ (self (snd r)) = UIntMax.incr (count_skip_ (self s)) /\
  count_pass_ (self (snd r)) = count_pass_ (self s) /\
  count_fail_ (self (snd r)) = count_fail_ (self s) /\
  out_ (self (snd r)) = out_ (self s).
Proof.
  intros Ha Hf Hid.
  assert (E : r = (Normal false, mk_Machine w (count Skip (self s)))).
  { destruct Ha; eapply filtered_reject; eassumption. }
  rewrite E. cbn. intuition.
Qed.

(** C9.  Whatever an assertion call does and however it ends, the formatting
    flags of the stream are after the call what they were before it. *)
Theorem C9_flags_restored (id : string) (s : Machine World)
  (r : completion bool * Machine World) :
  assertion id s r ->
  flags (out_ (self (snd r))) = flags (out_ (self s)).
Proof.
  intros Ha. apply (reckoned_frame id s r (assertion_reckoned _ _ _ Ha)).
Qed.

(** C10.  The configuration members, [summary] and the accessors leave the
    three counters as they are. *)
Theorem C10_other_members_keep_counters (s s' : Machine World) :
  other_call s s' ->
  count_pass_ (self s') = count_pass_ (self s) /\
  count_fail_ (self s') = count_fail_ (self s) /\
  count_skip_ (self s') = count_skip_ (self s).
Proof. apply other_call_counters. Qed.

Ltac accepted Hf :=
  match type of Hf with
  | filtered_out ?id ?s = (_, ?s1) =>
      rewrite (filtered_accept _ _ _ _ Hf);
      open_machine s; destruct s1; run
  end.



(** C5.  When the filter does not reject the id, [expect_exception<Except>]
    returns true and increments [count_pass_] exactly when the unit under
    test throws an object that a handler for [Except] takes.  An object of
    another type gives a FAIL with the diagnostic of the wrong type, no
    object at all a FAIL with the diagnostic of the missing exception, and
    the two diagnostics differ. *)
Theorem C5_expect_exception_three_ways
  {R} (Except id : string) (t : Test World R) (s s1 : Machine World)
  (c : completion R) (w : World) :
  filtered_out id s = (Normal false, s1) ->
  t (world s1) = (c, w) ->
  expect_exception Except id t s =
    match c with
    | Throw e =>
        if handler_matches Except e
        then (Normal true,
              mk_Machine w
                (written (pass_line (self s) id) (count Pass (self s))))
        else (Normal false,
              mk_Machine w
                (written
                   (fail_line (self s) id ++
                    "  an exception happened but not of the correct type."
                    ++ nl)
                   (count Fail (self s))))
    | Normal _ =>
        (Normal false,
         mk_Machine w
           (written
              (fail_line (self s) id ++
               "  expected exception was not thrown." ++ nl)
              (count Fail (self s))))
    end /\
  "  an exception happened but not of the correct type." ++ nl <>
  "  expected exception was not thrown." ++ nl.
Proof.
  intros Hf Ht. split; [|discriminate].
  unfold expect_exception. accepted Hf. rewrite Ht.
  destruct c as [v|e]; [|destruct (handler_matches Except e)];
    try destruct hid; same_text.
Qed.

(** C6.  When the filter does not reject the id and the unit under test
    returns [v], [expect_in_range] returns [min <= v && v <= max] and
    increments [count_pass_] exactly when that is true.  Both comparisons
    are the non-strict one: with a reflexive [<=] and [min <= max], a unit
    that returns [min] passes and a unit that returns [max] passes. *)
Theorem C6_expect_in_range_inclusive :
  (forall R T (SR : Streamable R) (ST : Streamable T)
          (LE1 : LessEqComparable T R) (LE2 : LessEqComparable R T)
          (id : string) (min max : T) (t : Test World R) (s s1 : Machine World)
          (v : R) (w : World),
     filtered_out id s = (Normal false, s1) ->
     t (world s1) = (Normal v, w) ->
     expect_in_range id min max t s =
       (Normal (less_equal min v && less_equal v max),
        mk_Machine w
          (if less_equal min v && less_equal v max
           then written (pass_line (self s) id) (count Pass (self s))
           else written
                  (fail_line (self s) id ++
                   "  value " ++ put_to (flags (out_ (self s))) v ++
                   " is not in expected range [" ++
                   put_to (flags (out_ (self s))) min ++ ", " ++
                   put_to (flags (out_ (self s))) max ++ "]" ++ nl)
                  (count Fail (self s))))) /\
  (forall T (ST : Streamable T) (LE : LessEqComparable T T)
          (id : string) (min max : T) (s s1 : Machine World),
     (forall x : T, less_equal x x = true) ->
     less_equal min max = true ->
     filtered_out id s = (Normal false, s1) ->
     expect_in_range id min max (returns min) s =
       (Normal true,
        mk_Machine (world s1)
          (written (pass_line (self s) id) (count Pass (self s)))) /\
     expect_in_range id min max (returns max) s =
       (Normal true,
        mk_Machine (world s1)
          (written (pass_line (self s) id) (count Pass (self s))))).
Proof.
  assert (General :
    forall R T (SR : Streamable R) (ST : Streamable T)
           (LE1 : LessEqComparable T R) (LE2 : LessEqComparable R T)
           (id : string) (min max : T) (t : Test World R) (s s1 : Machine World)
           (v : R) (w : World),
      filtered_out id s = (Normal false, s1) ->
      t (world s1) = (Normal v, w) ->
      expect_in_range id min max t s =
        (Normal (less_equal min v && less_equal v max),
         mk_Machine w
           (if less_equal min v && less_equal v max
            then written (pass_line (self s) id) (count Pass (self s))
            else written
                   (fail_line (self s) id ++
                    "  value " ++ put_to (flags (out_ (self s))) v ++
                    " is not in expected range [" ++
                    put_to (flags (out_ (self s))) min ++ ", " ++
                    put_to (flags (out_ (self s))) max ++ "]" ++ nl)
                   (count Fail (self s))))).
  { intros R T SR ST LE1 LE2 id min max t s s1 v w Hf Ht.
    unfold expect_in_range. accepted Hf. rewrite Ht.
    destruct (less_equal min v && less_equal v max)%bool;
      [destruct hid|]; same_text. }
  split; [exact General|].
  intros T ST LE id min max s s1 Hrefl Hle Hf. split.
  - rewrite (General T T ST ST LE LE id min max (returns min) s s1
               min (world s1) Hf eq_refl).
    now rewrite Hrefl, Hle.
  - rewrite (General T T ST ST LE LE id min max (returns max) s s1
               max (world s1) Hf eq_refl).
    now rewrite Hrefl, Hle.
Qed.

(** C7.  [summary] writes, in this order, the line of the skipped tests when
    [count_skip_ > 0], the line of the passed tests, and the line of the
    failed tests when [count_fail_ > 0], and nothing else; the counters
    are printed under the flags of the stream.  With [count_fail_ = 0] the
    word FAILED is not in what it writes; with [count_fail_ > 0] it is. *)
Theorem C7_summary_lines (s : Machine World) :
  summary s =
    (Normal tt,
     with_self
       (written
          ((if 0 <? count_skip_ (self s) then skipped_line (self s) else "")
           ++ passed_line (self s) ++
           (if 0 <? count_fail_ (self s) then failed_line (self s) else "")))
       s) /\
  (count_fail_ (self s) = 0 ->
   ~ occurs_in "FAILED" (summary_text (self s))) /\
  (0 < count_fail_ (self s) ->
   occurs_in "FAILED" (summary_text (self s))) /\
  (count_skip_ (self s) = 0 ->
   ~ occurs_in "skipped" (summary_text (self s))) /\
  (0 < count_skip_ (self s) ->
   occurs_in "skipped" (summary_text (self s))).
Proof.
  split; [apply summary_run|].
  unfold summary_text, skipped_line, passed_line, failed_line.
  repeat split.
  - intros H0 Hocc. rewrite H0 in Hocc. cbn [Z.ltb Z.compare] in Hocc.
    apply (occurs_in_mentions "L") in Hocc; [|reflexivity].
    rewrite !mentions_append in Hocc.
    rewrite !(all_digits_mentions "L" _ (put_uintmax_to_all_digits _ _) eq_refl) in Hocc.
    destruct (0 <? count_skip_ (self s)); rewrite ?mentions_append in Hocc;
      rewrite ?(all_digits_mentions "L" _ (put_uintmax_to_all_digits _ _) eq_refl) in Hocc;
      discriminate.
  - intros Hpos. apply Z.ltb_lt in Hpos. rewrite Hpos.
    eexists
      ((if 0 <? count_skip_ (self s)
        then put_uintmax_to (flags (out_ (self s))) (count_skip_ (self s)) ++ " tests skipped." ++ nl
        else "") ++
       (put_uintmax_to (flags (out_ (self s))) (count_pass_ (self s)) ++ " tests passed." ++ nl) ++
       put_uintmax_to (flags (out_ (self s))) (count_fail_ (self s)) ++ " tests " ++
       (if color_output_ (self s) then c_red else "")),
      (" !" ++ (if color_output_ (self s) then c_reset else "") ++ nl).
    rewrite !append_assoc. reflexivity.
  - intros H0 Hocc. rewrite H0 in Hocc. cbn [Z.ltb Z.compare] in Hocc.
    apply (occurs_in_mentions "k") in Hocc; [|reflexivity].
    rewrite !mentions_append in Hocc.
    rewrite !(all_digits_mentions "k" _ (put_uintmax_to_all_digits _ _) eq_refl) in Hocc.
    destruct (0 <? count_fail_ (self s)), (color_output_ (self s));
      rewrite ?mentions_append in Hocc;
      rewrite ?(all_digits_mentions "k" _ (put_uintmax_to_all_digits _ _) eq_refl) in Hocc;
      discriminate.
  - intros Hpos. apply Z.ltb_lt in Hpos. rewrite Hpos.
    exists (put_uintmax_to (flags (out_ (self s))) (count_skip_ (self s)) ++ " tests ").
    eexists
      ("." ++ nl ++
       (put_uintmax_to (flags (out_ (self s))) (count_pass_ (self s)) ++ " tests passed." ++ nl) ++
       (if 0 <? count_fail_ (self s)
        then put_uintmax_to (flags (out_ (self s))) (count_fail_ (self s)) ++ " tests " ++
             (if color_output_ (self s) then c_red else "") ++ "FAILED !" ++
             (if color_output_ (self s) then c_reset else "") ++ nl
        else "")).
    rewrite !append_assoc. reflexivity.
Qed.

(** C8.  For each of the six assertion operations, calling it on the handle
    that [operator()] returns for [id] is calling it on the tester with
    [id]: same completion, same counters, same text on the stream. *)
Theorem C8_named_handle_forwards
  {R T} `{BoolConvertible R} `{Streamable R} `{Streamable T}
  `{EqualityComparable R T}
  `{LessEqComparable T R} `{LessEqComparable R T}
  (Except id : string) (value min max : T) (t : Test World R) (s : Machine World) :
  bind (call_operator id) (fun n => namer_expect_true n t) s = expect_true id t s /\
  bind (call_operator id) (fun n => namer_expect_false n t) s = expect_false id t s /\
  bind (call_operator id) (fun n => namer_expect_value n value t) s =
    expect_value id value t s /\
  bind (call_operator id) (fun n => namer_expect_in_range n min max t) s =
    expect_in_range id min max t s /\
  bind (call_operator id) (fun n => namer_expect_any_exception n t) s =
    expect_any_exception id t s /\
  bind (call_operator id) (fun n => namer_expect_exception Except n t) s =
    expect_exception Except id t s.
Proof. repeat split. Qed.

(** ** More on what the members do *)

(** X1.  Whatever the filter and the printers do, the value an assertion
    operation returns says whether it counted a PASS: [count_pass_] went up
    when it returned true, and stayed when it returned false or threw.  And
    when the filter returns and the printers of the values return, the
    operation does not throw to its caller. *)
Theorem X1_returns_what_it_counts (id : string) (s : Machine World)
  (r : completion bool * Machine World) :
  assertion id s r ->
  count_pass_ (self (snd r)) =
    (if passed r then UIntMax.incr (count_pass_ (self s))
     else count_pass_ (self s)) /\
  (quiet_assertion id s r -> exists b : bool, fst r = Normal b).
Proof.
  intros Ha. split.
  - unfold passed.
    destruct (assertion_reckoned _ _ _ Ha)
      as (w & [-> | [[-> _] | [(e & -> & _) | (text & Hc & Hs)]]]);
      try reflexivity.
    destruct r as [[[|]|e] s']; cbn [fst snd] in *;
      try contradiction; destruct Hs as [-> | ->]; reflexivity.
  - intros Hq.
    destruct (quiet_assertion_verdict _ _ _ Hq)
      as (w & [-> | [(diag & -> & _) | ->]]);
      [exists true | exists false | exists false]; reflexivity.
Qed.

(** X2.  A call that returns false either skipped the test, and then it
    wrote nothing, or wrote the FAIL line of the id, which does not depend
    on [hide_pass_], and some text after it, and counted one FAIL, or two
    when a printer threw.  When the filter and the printers return, it is
    one FAIL, and the text is a diagnostic that starts with two spaces and
    ends with a newline. *)
Theorem X2_false_is_a_skip_or_a_report (id : string) (s : Machine World)
  (r : completion bool * Machine World) :
  assertion id s r ->
  fst r = Normal false ->
  (self (snd r) = count Skip (self s) \/
   exists text : string,
     self (snd r) =
       written (fail_line (self s) id ++ text) (count Fail (self s)) \/
     self (snd r) =
       written (fail_line (self s) id ++ text)
         (count Fail (count Fail (self s)))) /\
  (quiet_assertion id s r ->
   self (snd r) = count Skip (self s) \/
   exists diag : string,
     self (snd r) =
       written (fail_line (self s) id ++ "  " ++ diag) (count Fail (self s)) /\
     ends_with_nl diag = true).
Proof.
  intros Ha Hr. split.
  - destruct (assertion_reckoned _ _ _ Ha)
      as (w & [-> | [[-> _] | [(e & -> & _) | (text & _ & Hs)]]]);
      try discriminate.
    + left. reflexivity.
    + right. exists text. destruct Hs as [-> | ->]; [left | right];
        reflexivity.
  - intros Hq.
    destruct (quiet_assertion_verdict _ _ _ Hq)
      as (w & [-> | [(diag & -> & Hd) | ->]]).
    + discriminate.
    + right. exists diag. split; [reflexivity | exact Hd].
    + left. reflexivity.
Qed.

(** X3.  A call that returns true counted a PASS and wrote the PASS line
    and nothing else; with [hide_pass_] set, the stream is left as it was. *)
Theorem X3_true_is_a_pass_line (id : string) (s : Machine World)
  (r : completion bool * Machine World) :
  assertion id s r ->
  fst r = Normal true ->
  self (snd r) = written (pass_line (self s) id) (count Pass (self s)) /\
  (hide_pass_ (self s) = true -> out_ (self (snd r)) = out_ (self s)).
Proof.
  intros Ha Hr.
  destruct (assertion_reckoned _ _ _ Ha)
    as (w & [-> | [[-> _] | [(e & -> & _) | (text & Hc & _)]]]);
    try discriminate; [|contradiction].
  split; [reflexivity|].
  intros Hh. unfold pass_line. rewrite Hh.
  destruct s as [w0 [[txt fl] np nf ns col hid flt]]. cbn.
  now rewrite append_nil_r.
Qed.

(** X4.  No assertion operation changes the configuration of the tester:
    the colors, the hiding of the PASS lines and the filter are after the
    call what they were before. *)
Theorem X4_assertions_keep_configuration (id : string) (s : Machine World)
  (r : completion bool * Machine World) :
  assertion id s r ->
  color_output_ (self (snd r)) = color_output_ (self s) /\
  hide_pass_ (self (snd r)) = hide_pass_ (self s) /\
  filter_ (self (snd r)) = filter_ (self s).
Proof.
  intros Ha.
  destruct (reckoned_frame id s r (assertion_reckoned _ _ _ Ha))
    as (_ & Hc & Hh & Hf & _).
  auto.
Qed.

(** X5.  The tester only ever appends to its stream: after a call of any
    public member, the text of the stream is the text before the call
    followed by what the call wrote; and the members other than the
    assertions leave the formatting flags alone too. *)
Theorem X5_stream_is_appended_to (s : Machine World) :
  (forall id r,
     assertion id s r ->
     exists text,
       chars (out_ (self (snd r))) = chars (out_ (self s)) ++ text) /\
  (forall s',
     other_call s s' ->
     flags (out_ (self s')) = flags (out_ (self s)) /\
     exists text,
       chars (out_ (self s')) = chars (out_ (self s)) ++ text).
Proof.
  split.
  - intros id r Ha.
    apply (reckoned_frame id s r (assertion_reckoned _ _ _ Ha)).
  - intros s' [ | | | |c| | |f| ];
      try (split; [reflexivity | exists ""; cbn; now rewrite append_nil_r]).
    rewrite summary_run. split; [reflexivity|].
    exists (summary_text (self s)). reflexivity.
Qed.

(** X6.  In a session of fewer than [2^64] assertion calls whose filters
    and printers return, the three counters sum to the number of the calls,
    [count_pass()] returns the number of the calls that returned true, and
    [count_fail_] and [count_skip_] share the calls that returned false. *)
Theorem X6_count_pass_counts_the_trues (p n : nat) (s : Machine World) :
  scored p n s ->
  Z.of_nat n < UIntMax.modulus ->
  total (self s) = Z.of_nat n /\
  count_pass s = (Normal (Z.of_nat p), s) /\
  count_fail_ (self s) + count_skip_ (self s) = Z.of_nat n - Z.of_nat p /\
  (p <= n)%nat.
Proof.
  intros Hs.
  assert (G : Z.of_nat n < UIntMax.modulus ->
              (count_pass_ (self s) = Z.of_nat p /\
               count_fail_ (self s) + count_skip_ (self s)
                 = Z.of_nat n - Z.of_nat p /\ (p <= n)%nat) /\
              0 <= count_fail_ (self s) /\ 0 <= count_skip_ (self s)).
  { induction Hs as [out w|p n s id r Hs IH Ha|p n s s' Hs IH Ho|p n s w Hs IH];
      intros Hn.
    - cbn. lia.
    - destruct IH as ((Hp & Hf & Hle) & Hf0 & Hs0); [lia|].
      rewrite Nat2Z.inj_succ in *. unfold passed.
      destruct (quiet_assertion_verdict _ _ _ Ha)
        as (w & [-> | [(diag & -> & _) | ->]]);
        cbn; rewrite ?incr_small by lia; lia.
    - destruct (other_call_counters _ _ Ho) as (-> & -> & ->). auto.
    - cbn. auto. }
  intros Hn. destruct (G Hn) as ((Hp & Hrest & Hle) & _).
  split; [unfold total; lia|].
  split; [|split; assumption].
  unfold count_pass, gets. now rewrite Hp.
Qed.

(** X7.  As long as no assertion was made, whatever else was called,
    [summary] writes the one line [0 tests passed.] *)
Theorem X7_summary_of_an_empty_session (s : Machine World) :
  session 0 s ->
  summary s = (Normal tt, with_self (written ("0 tests passed." ++ nl)) s).
Proof.
  intros Hs.
  destruct (session_zero_counters 0 s Hs eq_refl) as (Ep & Ef & Ek).
  rewrite summary_run. unfold summary_text, passed_line.
  rewrite Ep, Ef, Ek, put_uintmax_to_zero. reflexivity.
Qed.

(** X8.  Without a filter, as on a new tester or after [always], no
    assertion operation skips its test: [count_skip_] stays as it is. *)
Theorem X8_no_filter_no_skip (id : string) (s : Machine World)
  (r : completion bool * Machine World) :
  filter_ (self s) = None ->
  assertion id s r ->
  count_skip_ (self (snd r)) = count_skip_ (self s).
Proof.
  intros Hf Ha.
  destruct (assertion_reckoned _ _ _ Ha)
    as (w & [-> | [[_ Hn] | [(e & _ & Hn) | (text & _ & [-> | ->])]]]);
    try contradiction; reflexivity.
Qed.

(** X9.  [expect_true] and [expect_false] ask the filter once themselves
    and once more inside [expect_value].  When the filter says yes the
    first time and no the second, the test is skipped: the call returns
    false, counts a skipped test, writes nothing, does not run the unit and
    leaves the flags of the stream as they were. *)
Theorem X9_filter_is_asked_twice
  {R} `{BoolConvertible R} (id : string) (t : Test World R)
  (s : Machine World) (f : string -> World -> completion bool * World)
  (w1 w2 : World) :
  filter_ (self s) = Some f ->
  f id (world s) = (Normal true, w1) ->
  f id w1 = (Normal false, w2) ->
  expect_true id t s = (Normal false, mk_Machine w2 (count Skip (self s))) /\
  expect_false id t s = (Normal false, mk_Machine w2 (count Skip (self s))).
Proof.
  intros Hf H1 H2. open_machine s. cbn in Hf, H1. subst flt.
  split; cbv [expect_true expect_false expect_value]; run;
    rewrite H1; run; rewrite H2; reflexivity.
Qed.

Lemma boolalpha_is_set (fl : fmtflags) :
  Z.testbit (Z.lor fl boolalpha) 0 = true.
Proof. rewrite Z.lor_spec. apply orb_true_r. Qed.

(** The two questions [expect_true] and [expect_false] put to the filter,
    both answered yes. *)
Ltac answer H :=
  match type of H with
  | context [match ?f ?i ?x with _ => _ end] =>
      let E := fresh "E" in
      destruct (f i x) as [[[|]|?ex] ?w] eqn:E; cbv [negb] in H;
      [|discriminate H|discriminate H]
  | _ => idtac
  end;
  injection H as <-.

Ltac asked_twice s s1 s2 Hf1 Hf2 :=
  pose proof (filtered_out_self _ _ _ _ Hf1) as E1;
  pose proof (filtered_out_self _ _ _ _ Hf2) as E2;
  destruct s1 as [?w ?u]; destruct s2 as [?w ?u];
  cbn [world self] in *;
  injection E1 as ->; injection E2 as ->;
  open_machine s;
  cbv [filtered_out self world filter_ with_world] in Hf1, Hf2;
  match type of Hf1 with
  | context [match ?flt with _ => _ end] => destruct flt as [?f|]
  end;
  answer Hf1; answer Hf2.

(** X10.  When the filter lets the id through and the unit returns [v],
    [expect_true] returns [!!v].  A truthy [v] is a PASS; a falsy one is a
    FAIL whose diagnostic spells the two booleans as words, whatever the
    flags of the stream are. *)
Theorem X10_expect_true_judges
  {R} `{BoolConvertible R} (id : string) (t : Test World R)
  (s s1 s2 : Machine World) (v : R) (w : World) :
  filtered_out id s = (Normal false, s1) ->
  filtered_out id s1 = (Normal false, s2) ->
  t (world s2) = (Normal v, w) ->
  expect_true id t s =
    (Normal (to_bool v),
     mk_Machine w
       (if to_bool v
        then written (pass_line (self s) id) (count Pass (self s))
        else written
               (fail_line (self s) id ++
                "  expected value true, found false instead." ++ nl)
               (count Fail (self s)))).
Proof.
  intros Hf1 Hf2 Ht. asked_twice s s1 s2 Hf1 Hf2;
    cbv [expect_true expect_value not_not]; run;
    rewrite ?E, ?E0; run; rewrite ?E, ?E0; run; rewrite Ht;
    cbv [equal_to bool_EqualityComparable put_to bool_Streamable];
    rewrite ?boolalpha_is_set;
    destruct (to_bool v); cbn [Bool.eqb negb]; try destruct hid;
    rewrite ?boolalpha_is_set; same_text.
Qed.

(** X11.  When the filter lets the id through and the unit returns [v],
    [expect_false] returns the negation of [!!v].  A falsy [v] is a PASS; a
    truthy one is a FAIL whose diagnostic spells the two booleans as
    words. *)
Theorem X11_expect_false_judges
  {R} `{BoolConvertible R} (id : string) (t : Test World R)
  (s s1 s2 : Machine World) (v : R) (w : World) :
  filtered_out id s = (Normal false, s1) ->
  filtered_out id s1 = (Normal false, s2) ->
  t (world s2) = (Normal v, w) ->
  expect_false id t s =
    (Normal (negb (to_bool v)),
     mk_Machine w
       (if to_bool v
        then written
               (fail_line (self s) id ++
                "  expected value false, found true instead." ++ nl)
               (count Fail (self s))
        else written (pass_line (self s) id) (count Pass (self s)))).
Proof.
  intros Hf1 Hf2 Ht. asked_twice s s1 s2 Hf1 Hf2;
    cbv [expect_false expect_value not_not]; run;
    rewrite ?E, ?E0; run; rewrite ?E, ?E0; run; rewrite Ht;
    cbv [equal_to bool_EqualityComparable put_to bool_Streamable];
    destruct (to_bool v); cbn [Bool.eqb negb]; try destruct hid;
    rewrite ?boolalpha_is_set; same_text.
Qed.

(** X12.  When the filter lets the id through and the unit throws,
    [expect_true] and [expect_false] complete normally with false, like
    [expect_value], which they call: a FAIL is counted and the diagnostic
    names the expected boolean as a word and then [what()], or the fixed
    text for an object that is not a [std::exception]. *)
Theorem X12_expect_true_false_catch
  {R} `{BoolConvertible R} (id : string) (t : Test World R)
  (s s1 s2 : Machine World) (e : exception_object) (w : World) :
  filtered_out id s = (Normal false, s1) ->
  filtered_out id s1 = (Normal false, s2) ->
  t (world s2) = (Throw e, w) ->
  expect_true id t s =
    (Normal false,
     mk_Machine w
       (written
          (fail_line (self s) id ++ "  expected value true" ++
           (if handler_matches std_exception e
            then ", got exception: " ++ what e
            else ", got exception not derived from std::exception") ++ nl)
          (count Fail (self s)))) /\
  expect_false id t s =
    (Normal false,
     mk_Machine w
       (written
          (fail_line (self s) id ++ "  expected value false" ++
           (if handler_matches std_exception e
            then ", got exception: " ++ what e
            else ", got exception not derived from std::exception") ++ nl)
          (count Fail (self s)))).
Proof.
  intros Hf1 Hf2 Ht. asked_twice s s1 s2 Hf1 Hf2; split;
    cbv [expect_true expect_false expect_value not_not]; run;
    rewrite ?E, ?E0; run; rewrite ?E, ?E0; run; rewrite Ht;
    cbv [put_to bool_Streamable];
    destruct (handler_matches std_exception e);
    rewrite ?boolalpha_is_set; same_text.
Qed.

(** X13.  When the filter lets the id through, [expect_any_exception]
    returns true and counts a PASS when the unit throws, whatever the
    object is; when the unit returns, its value is dropped, a FAIL is
    counted and the diagnostic says that no exception was thrown. *)
Theorem X13_expect_any_exception_judges
  {R} (id : string) (t : Test World R) (s s1 : Machine World)
  (c : completion R) (w : World) :
  filtered_out id s = (Normal false, s1) ->
  t (world s1) = (c, w) ->
  expect_any_exception id t s =
    match c with
    | Throw _ =>
        (Normal true,
         mk_Machine w (written (pass_line (self s) id) (count Pass (self s))))
    | Normal _ =>
        (Normal false,
         mk_Machine w
           (written
              (fail_line (self s) id ++
               "  expected exception was not thrown." ++ nl)
              (count Fail (self s))))
    end.
Proof.
  intros Hf Ht. unfold expect_any_exception. accepted Hf. rewrite Ht.
  destruct c as [v|e]; try destruct hid; same_text.
Qed.

(** X14.  On the same state and the same unit, [expect_true] and
    [expect_false] never both return true. *)
Theorem X14_true_and_false_exclude
  {R} `{BoolConvertible R} (id : string) (t : Test World R)
  (s : Machine World) :
  passed (expect_true id t s) && passed (expect_false id t s) = false.
Proof.
  open_machine s.
  cbv [passed expect_true expect_false expect_value not_not
       equal_to bool_EqualityComparable]; run.
  destruct flt as [f|].
  - destruct (f id w) as [[[|]|ex] w1]; [|reflexivity|reflexivity]. run.
    destruct (f id w1) as [[[|]|ex] w2]; [|reflexivity|reflexivity]. run.
    destruct (t w2) as [[v|e] w3].
    + destruct (to_bool v), hid; reflexivity.
    + destruct (handler_matches std_exception e); reflexivity.
  - destruct (t w) as [[v|e] w3].
    + destruct (to_bool v), hid; reflexivity.
    + destruct (handler_matches std_exception e); reflexivity.
Qed.

(** X15.  [expect_exception<Except>] asks for more than
    [expect_any_exception]: where the first returns true, so does the
    second, on the same state and the same unit. *)
Theorem X15_exception_implies_any_exception
  {R} (Except id : string) (t : Test World R) (s : Machine World) :
  passed (expect_exception Except id t s) = true ->
  passed (expect_any_exception id t s) = true.
Proof.
  open_machine s.
  cbv [passed expect_exception expect_any_exception]; run.
  destruct flt as [f|].
  - destruct (f id w) as [[[|]|ex] w1]; [|discriminate|discriminate]. run.
    destruct (t w1) as [[v|e] w3];
      [|destruct (handler_matches Except e)];
      destruct hid; cbn; intros; first [reflexivity | discriminate].
  - destruct (t w) as [[v|e] w3];
      [|destruct (handler_matches Except e)];
      destruct hid; cbn; intros; first [reflexivity | discriminate].
Qed.

(** X16.  With bounds the wrong way round the range of [expect_in_range]
    is empty.  When [<=] is transitive from the bounds through the result of
    the unit, and [min <= max] is false, no unit passes. *)
Theorem X16_empty_range_never_passes
  {R T} `{Insertable R} `{Insertable T}
  `{LessEqComparable T R} `{LessEqComparable R T} `{LessEqComparable T T}
  (id : string) (min max : T) (t : Test World R) (s : Machine World) :
  (forall (a b : T) (v : R),
     less_equal a v = true -> less_equal v b = true ->
     less_equal a b = true) ->
  less_equal min max = false ->
  passed (expect_in_range id min max t s) = false.
Proof.
  intros Htrans Hempty.
  assert (Hv : forall v : R,
             (less_equal min v && less_equal v max)%bool = false).
  { intros v. destruct (less_equal min v) eqn:E1; [|reflexivity].
    destruct (less_equal v max) eqn:E2; [|reflexivity].
    rewrite (Htrans min max v E1 E2) in Hempty. discriminate. }
  destruct (expect_in_range_reckoned id min max t s)
    as (w & [E | [[-> _] | [(e & -> & _) | (text & Hc & _)]]]);
    try reflexivity.
  - exfalso. revert E. open_machine s. unfold expect_in_range. run.
    on_filter flt f id w0 Ef; try discriminate;
      destruct (t _) as [[v|e] w'];
      rewrite ?Hv; on_printers; discriminate.
  - unfold passed. destruct (fst (expect_in_range id min max t s))
      as [[|]|e]; [contradiction | reflexivity | reflexivity].
Qed.

(** X17.  The configuration members compose as their comments say:
    [only_if] replaces the condition set before, [always] removes it, and a
    tester without a filter, with its PASS lines shown, is back to what it
    was after [only_if] then [always], after [hide_pass] then [show_pass],
    and after the colors were set and set back. *)
Theorem X17_configuration_round_trips (s : Machine World)
  (f g : filter_function World) (c : bool) :
  snd (only_if g (snd (only_if f s))) = snd (only_if g s) /\
  snd (always (snd (only_if f s))) = snd (always s) /\
  (filter_ (self s) = None -> snd (always (snd (only_if f s))) = s) /\
  (hide_pass_ (self s) = false -> snd (show_pass (snd (hide_pass s))) = s) /\
  snd (set_color (color_output_ (self s)) (snd (set_color c s))) = s.
Proof.
  open_machine s. cbn. repeat split; intros; subst; reflexivity.
Qed.

(** X18.  With the colors off, the tester writes no escape sequence of its
    own: what [summary] writes has no escape character in it, and [pass_]
    and [fail_] write the glyph, the word, the id and a newline. *)
Theorem X18_no_color_no_escape (s : Machine World) :
  color_output_ (self s) = false ->
  (exists text,
     summary s = (Normal tt, with_self (written text) s) /\
     mentions (ascii_of_nat 27) text = false) /\
  (forall id,
     fail_ id s =
       (Normal tt,
        with_self
          (fun u => written ("☒  FAIL  " ++ id ++ nl) (count Fail u)) s) /\
     pass_ id s =
       (Normal tt,
        with_self
          (fun u =>
             written (if hide_pass_ u then "" else "☑  PASS  " ++ id ++ nl)
               (count Pass u)) s)).
Proof.
  intros Hc. split.
  - exists (summary_text (self s)). split; [apply summary_run|].
    unfold summary_text, skipped_line, passed_line, failed_line.
    rewrite Hc.
    destruct (0 <? count_skip_ (self s)), (0 <? count_fail_ (self s));
      rewrite ?mentions_append,
        ?(all_digits_mentions (ascii_of_nat 27) _
            (put_uintmax_to_all_digits _ _) eq_refl);
      reflexivity.
  - intros id. open_machine s. cbn in Hc. subst col. split.
    + run. same_text.
    + run. destruct hid; run; same_text.
Qed.

(** X19.  The counters are [uintmax_t]: when [count_pass_] holds the
    largest value of the type, one more PASS takes it to zero, and the
    other two counters stay. *)
Theorem X19_count_pass_wraps (id : string) (s : Machine World)
  (r : completion bool * Machine World) :
  assertion id s r ->
  fst r = Normal true ->
  count_pass_ (self s) = UIntMax.modulus - 1 ->
  count_pass_ (self (snd r)) = 0 /\
  count_fail_ (self (snd r)) = count_fail_ (self s) /\
  count_skip_ (self (snd r)) = count_skip_ (self s).
Proof.
  intros Ha Hr Hmax.
  destruct (assertion_reckoned _ _ _ Ha)
    as (w & [-> | [[-> _] | [(e & -> & _) | (text & Hc & _)]]]);
    try discriminate; [|contradiction].
  cbn. rewrite Hmax. repeat split.
Qed.

End Properties.

(** ** The properties at concrete inputs *)

(** C1.  The sum of the three counters is not always the number of the
    assertion calls, and one call does not always move exactly one counter.
    [expect_value] on a unit that returns a value whose [operator<<] throws:
    [fail_] runs in the [try] block, the printer throws while the diagnostic
    is written, and the handler runs [fail_] again; the call returns false
    and [count_fail_] is two after one call.  And with a filter that throws,
    the call is left by the exception and no counter has moved. *)
Theorem C1_one_call_two_fails :
  session 1 (snd (expect_value "a" 1 (returns Fragile) fresh)) /\
  expect_value "a" 1 (returns Fragile) fresh =
    (Normal false,
     mk_Machine 0%nat
       (written
          (fail_line (self fresh) "a" ++ "  expected value 1, found " ++
           fail_line (self fresh) "a" ++
           "  expected value 1, got exception: cannot print" ++ nl)
          (count Fail (count Fail (self fresh))))) /\
  total (self (snd (expect_value "a" 1 (returns Fragile) fresh))) = 2 /\
  ~ one_counter_incremented (self fresh)
      (self (snd (expect_value "a" 1 (returns Fragile) fresh))) /\
  session 1
    (snd (expect_value "a" 1 (tick 1)
            (snd (only_if (Some throwing_filter) fresh)))) /\
  expect_value "a" 1 (tick 1) (snd (only_if (Some throwing_filter) fresh)) =
    (Throw (runtime_error "no filter today"),
     snd (only_if (Some throwing_filter) fresh)) /\
  total (self (snd (expect_value "a" 1 (tick 1)
                      (snd (only_if (Some throwing_filter) fresh))))) = 0.
Proof.
  repeat split.
  - apply (session_assertion 0 fresh "a"
             (expect_value "a" 1 (returns Fragile) fresh)).
    + apply session_new.
    + apply call_expect_value.
  - unfold one_counter_incremented. vm_compute.
    intros [(H & _) | [(_ & H & _) | (_ & _ & H)]]; discriminate H.
  - apply (session_assertion 0 (snd (only_if (Some throwing_filter) fresh)) "a"
             (expect_value "a" 1 (tick 1)
                (snd (only_if (Some throwing_filter) fresh)))).
    + apply (session_other 0 fresh).
      * apply session_new.
      * apply call_only_if.
    + apply call_expect_value.
Qed.


(** The tester with the filter [only_a], asked to run a test named [b]. *)
Lemma C3_witness :
  expect_true "b" (tick true) (snd (only_if (Some only_a) fresh)) =
    (Normal false,
     mk_Machine 0%nat (count Skip (self (snd (only_if (Some only_a) fresh))))).
Proof.
  exact (proj1 (C3_filtered_out_is_skipped
                  "b" (snd (only_if (Some only_a) fresh))
                  (expect_true "b" (tick true)
                     (snd (only_if (Some only_a) fresh)))
                  only_a 0%nat
                  (call_expect_true "b" _ bool _ (tick true))
                  eq_refl eq_refl)).
Defined.


(** [expect_exception<std::logic_error>] on a unit that throws an [int]. *)
Lemma C5_witness :
  expect_exception "std::logic_error" "a" (throws (R:=Z) thrown_int) fresh =
    (Normal false,
     mk_Machine 0%nat
       (written
          (c_red ++ "☒  FAIL  " ++ c_reset ++ "a" ++ nl ++
           "  an exception happened but not of the correct type." ++ nl)
          (count Fail (self fresh)))).
Proof.
  exact (proj1 (C5_expect_exception_three_ways
                  "std::logic_error" "a" (throws (R:=Z) thrown_int)
                  fresh fresh (Throw thrown_int) 0%nat eq_refl eq_refl)).
Defined.

(** [expect_in_range(id, 0, 10, ...)]: 11 fails, both bounds pass. *)
Lemma C6_witness :
  fst (expect_in_range "a" 0 10 (tick 11) fresh) = Normal false /\
  fst (expect_in_range "a" 0 10 (returns 0) fresh) = Normal true /\
  fst (expect_in_range "a" 0 10 (returns 10) fresh) = Normal true.
Proof.
  split; [|split].
  - rewrite (proj1 C6_expect_in_range_inclusive
               Z Z _ _ _ _ "a" 0 10 (tick 11) fresh fresh 11 1%nat
               eq_refl eq_refl).
    reflexivity.
  - rewrite (proj1 (proj2 C6_expect_in_range_inclusive
                      Z _ _ "a" 0 10 fresh fresh Z.leb_refl
                      eq_refl eq_refl)).
    reflexivity.
  - rewrite (proj2 (proj2 C6_expect_in_range_inclusive
                      Z _ _ "a" 0 10 fresh fresh Z.leb_refl
                      eq_refl eq_refl)).
    reflexivity.
Defined.

(** The summary of a fresh tester, and of a tester after one failure. *)
Lemma C7_witness :
  ~ occurs_in "FAILED" (summary_text (self fresh)) /\
  occurs_in "FAILED"
    (summary_text (self (snd (expect_value "a" 2 (tick 3) fresh)))).
Proof.
  split.
  - exact (proj1 (proj2 (C7_summary_lines fresh)) eq_refl).
  - exact (proj1 (proj2 (proj2
             (C7_summary_lines (snd (expect_value "a" 2 (tick 3) fresh)))))
             eq_refl).
Defined.

(** [expect_true] sets [boolalpha] for its diagnostic and takes it back. *)
Lemma C9_witness :
  flags (out_ (self (snd (expect_true "a" (tick false) fresh)))) = 0.
Proof.
  exact (C9_flags_restored "a" fresh (expect_true "a" (tick false) fresh)
           (call_expect_true "a" fresh bool _ (tick false))).
Defined.

(** [summary] after one failure. *)
Lemma C10_witness :
  count_pass_
    (self (snd (summary (snd (expect_value "a" 2 (tick 3) fresh))))) = 0 /\
  count_fail_
    (self (snd (summary (snd (expect_value "a" 2 (tick 3) fresh))))) = 1 /\
  count_skip_
    (self (snd (summary (snd (expect_value "a" 2 (tick 3) fresh))))) = 0.
Proof.
  exact (C10_other_members_keep_counters
           (snd (expect_value "a" 2 (tick 3) fresh))
           (snd (summary (snd (expect_value "a" 2 (tick 3) fresh))))
           (call_summary _)).
Defined.

(** ** Examples *)

(** The diagnostic of [expect_true] spells the booleans as words although
    the stream had [boolalpha] clear, and the stream has it clear again
    afterwards. *)
Example expect_true_prints_words :
  expect_true "t" (tick false) fresh =
    (Normal false,
     mk_Machine 1%nat
       (written
          (c_red ++ "☒  FAIL  " ++ c_reset ++ "t" ++ nl ++
           "  expected value true, found false instead." ++ nl)
          (count Fail (self fresh)))).
Proof. reflexivity. Qed.

(** [expect_true] asks the filter, and [expect_value], which it calls, asks
    it again.  A filter that changes its mind in between still gives one
    skipped test, and the unit is not run. *)
Example expect_true_asks_the_filter_twice :
  expect_true "t" (tick true) (snd (only_if (Some every_other) fresh)) =
    (Normal false,
     mk_Machine 2%nat
       (count Skip (self (snd (only_if (Some every_other) fresh))))).
Proof. reflexivity. Qed.

Example expect_true_true_passes :
  expect_true "t" (tick true) fresh =
    (Normal true,
     mk_Machine 1%nat
       (written (c_green ++ "☑  PASS  " ++ c_reset ++ "t" ++ nl)
          (count Pass (self fresh)))).
Proof. reflexivity. Qed.

Example expect_false_true_fails :
  fst (expect_false "t" (tick true) fresh) = Normal false.
Proof. reflexivity. Qed.

Example expect_in_range_5_passes :
  fst (expect_in_range "r" 0 10 (tick 5) fresh) = Normal true.
Proof. reflexivity. Qed.

Example expect_any_exception_passes_on_any_object :
  fst (expect_any_exception "e" (throws (R:=Z) thrown_int) fresh) = Normal true
  /\ fst (expect_any_exception "e" (throws (R:=Z) (logic_error "x")) fresh)
     = Normal true
  /\ fst (expect_any_exception "e" (tick 1) fresh) = Normal false.
Proof. repeat split. Qed.

Example expect_exception_three_outcomes :
  fst (expect_exception "std::logic_error" "e"
         (throws (R:=Z) (logic_error "x")) fresh) = Normal true /\
  fst (expect_exception "std::exception" "e"
         (throws (R:=Z) (logic_error "x")) fresh) = Normal true /\
  fst (expect_exception "std::logic_error" "e"
         (throws (R:=Z) thrown_int) fresh) = Normal false /\
  fst (expect_exception "std::logic_error" "e" (tick 1) fresh) = Normal false.
Proof. repeat split. Qed.

(** With colors off and PASS lines hidden, a session of three calls and its
    summary. *)
Example a_small_session :
  let s0 := snd (hide_pass (snd (set_color false fresh))) in
  let s1 := snd (expect_value "one" 2 (tick 2) s0) in
  let s2 := snd (expect_in_range "two" 0 10 (tick 11) s1) in
  let s3 := snd (expect_any_exception "three" (tick 0) s2) in
  chars (out_ (self (snd (summary s3)))) =
    "☒  FAIL  two" ++ nl ++
    "  value 11 is not in expected range [0, 10]" ++ nl ++
    "☒  FAIL  three" ++ nl ++
    "  expected exception was not thrown." ++ nl ++
    "1 tests passed." ++ nl ++
    "2 tests FAILED !" ++ nl.
Proof. reflexivity. Qed.

(** Under [std::hex] the summary prints its counters in base sixteen: ten
    passed tests are [a tests passed.] *)
Example summary_in_base_sixteen :
  chars (out_ (self (snd (summary
    (mk_Machine 0%nat
       (mk_UnitTester cout_hex 10 0 0 false false None)))))) =
    "a tests passed." ++ nl.
Proof. reflexivity. Qed.

(** [expect_in_range("r", 5, -1, [] { return 7u; })]: the bounds are
    converted to [unsigned int], [-1] becomes the largest value of the type
    and the call passes.  The comparison is not transitive from [5] through
    [7u] to [-1]. *)
Example int_bounds_around_an_unsigned_result :
  fst (@expect_in_range nat unsigned_int Z
         (@Streamable_Insertable _ unsigned_int_Streamable) _
         int_unsigned_LessEqComparable unsigned_int_LessEqComparable
         "r" 5 (-1) (returns (U 7)) fresh) = Normal true.
Proof. reflexivity. Qed.

Example summary_with_showbase_and_uppercase :
  put_uintmax_to (Z.lor (Z.lor hex showbase) uppercase) 255 = "0XFF" /\
  put_uintmax_to (Z.lor oct showbase) 8 = "010" /\
  put_uintmax_to (Z.lor dec showbase) 255 = "255".
Proof. repeat split. Qed.

(** ** The further properties at concrete inputs *)

Lemma fresh_filter_returns (id : string) : filter_returns (self fresh) id.
Proof. intros f Hf. discriminate Hf. Defined.

Lemma X1_witness :
  count_pass_ (self (snd (expect_value "a" 2 (tick 2) fresh))) =
    (if passed (expect_value "a" 2 (tick 2) fresh)
     then UIntMax.incr (count_pass_ (self fresh))
     else count_pass_ (self fresh)) /\
  exists b : bool, fst (expect_value "a" 2 (tick 2) fresh) = Normal b.
Proof.
  pose proof (X1_returns_what_it_counts "a" fresh
                (expect_value "a" 2 (tick 2) fresh)
                (call_expect_value "a" fresh Z Z _ _ _ 2 (tick 2)))
    as [E Hq].
  split; [exact E|].
  exact (Hq (quiet_expect_value "a" fresh Z Z _ _ _ 2 (tick 2)
               (fresh_filter_returns "a"))).
Defined.

Lemma X2_witness :
  self (snd (expect_value "a" 2 (tick 3) fresh)) = count Skip (self fresh) \/
  exists diag : string,
    self (snd (expect_value "a" 2 (tick 3) fresh)) =
      written (fail_line (self fresh) "a" ++ "  " ++ diag)
        (count Fail (self fresh)) /\
    ends_with_nl diag = true.
Proof.
  exact (proj2 (X2_false_is_a_skip_or_a_report "a" fresh
                  (expect_value "a" 2 (tick 3) fresh)
                  (call_expect_value "a" fresh Z Z _ _ _ 2 (tick 3)) eq_refl)
           (quiet_expect_value "a" fresh Z Z _ _ _ 2 (tick 3)
              (fresh_filter_returns "a"))).
Defined.

Lemma X3_witness :
  self (snd (expect_value "a" 2 (tick 2) (snd (hide_pass fresh)))) =
    written (pass_line (self (snd (hide_pass fresh))) "a")
      (count Pass (self (snd (hide_pass fresh)))) /\
  out_ (self (snd (expect_value "a" 2 (tick 2) (snd (hide_pass fresh))))) =
    out_ (self (snd (hide_pass fresh))).
Proof.
  pose proof (X3_true_is_a_pass_line "a" (snd (hide_pass fresh))
                (expect_value "a" 2 (tick 2) (snd (hide_pass fresh)))
                (call_expect_value "a" _ Z Z _ _ _ 2 (tick 2)) eq_refl)
    as [E Hh].
  split; [exact E | exact (Hh eq_refl)].
Defined.

Lemma X4_witness :
  color_output_ (self (snd (expect_true "a" (tick false) fresh))) = true /\
  hide_pass_ (self (snd (expect_true "a" (tick false) fresh))) = false /\
  filter_ (self (snd (expect_true "a" (tick false) fresh))) = None.
Proof.
  exact (X4_assertions_keep_configuration "a" fresh
           (expect_true "a" (tick false) fresh)
           (call_expect_true "a" fresh bool _ (tick false))).
Defined.

Lemma X5_witness :
  (exists text,
     chars (out_ (self (snd (expect_value "a" 2 (tick 3) fresh)))) =
       chars (out_ (self fresh)) ++ text) /\
  (flags (out_ (self (snd (summary fresh)))) = flags (out_ (self fresh)) /\
   exists text,
     chars (out_ (self (snd (summary fresh)))) =
       chars (out_ (self fresh)) ++ text).
Proof.
  split.
  - exact (proj1 (X5_stream_is_appended_to fresh) "a"
             (expect_value "a" 2 (tick 3) fresh)
             (call_expect_value "a" fresh Z Z _ _ _ 2 (tick 3))).
  - exact (proj2 (X5_stream_is_appended_to fresh)
             (snd (summary fresh)) (call_summary fresh)).
Defined.

Lemma X6_witness :
  total (self (snd (expect_value "a" 2 (tick 2) fresh))) = Z.of_nat 1 /\
  count_pass (snd (expect_value "a" 2 (tick 2) fresh)) =
    (Normal (Z.of_nat 1), snd (expect_value "a" 2 (tick 2) fresh)) /\
  count_fail_ (self (snd (expect_value "a" 2 (tick 2) fresh))) +
  count_skip_ (self (snd (expect_value "a" 2 (tick 2) fresh))) =
    Z.of_nat 1 - Z.of_nat 1 /\
  (1 <= 1)%nat.
Proof.
  refine (X6_count_pass_counts_the_trues
            1 1 (snd (expect_value "a" 2 (tick 2) fresh)) _ _).
  - exact (scored_assertion 0 0 fresh "a" (expect_value "a" 2 (tick 2) fresh)
             (scored_new cout 0%nat)
             (quiet_expect_value "a" fresh Z Z _ _ _ 2 (tick 2)
                (fresh_filter_returns "a"))).
  - reflexivity.
Defined.

Lemma X7_witness :
  summary (snd (hide_pass fresh)) =
    (Normal tt,
     with_self (written ("0 tests passed." ++ nl)) (snd (hide_pass fresh))).
Proof.
  apply X7_summary_of_an_empty_session.
  apply (session_other 0 fresh (snd (hide_pass fresh))).
  - apply session_new.
  - apply call_hide_pass.
Defined.

Lemma X8_witness :
  count_skip_
    (self (snd (expect_value "b" 2 (tick 2)
                  (snd (always (snd (only_if (Some only_a) fresh))))))) =
  count_skip_ (self (snd (always (snd (only_if (Some only_a) fresh))))).
Proof.
  exact (X8_no_filter_no_skip "b"
           (snd (always (snd (only_if (Some only_a) fresh))))
           (expect_value "b" 2 (tick 2)
              (snd (always (snd (only_if (Some only_a) fresh)))))
           eq_refl
           (call_expect_value "b" _ Z Z _ _ _ 2 (tick 2))).
Defined.

Lemma X9_witness :
  expect_true "t" (tick true) (snd (only_if (Some every_other) fresh)) =
    (Normal false,
     mk_Machine 2%nat
       (count Skip (self (snd (only_if (Some every_other) fresh))))) /\
  expect_false "t" (tick true) (snd (only_if (Some every_other) fresh)) =
    (Normal false,
     mk_Machine 2%nat
       (count Skip (self (snd (only_if (Some every_other) fresh))))).
Proof.
  exact (X9_filter_is_asked_twice "t" (tick true)
           (snd (only_if (Some every_other) fresh)) every_other 1%nat 2%nat
           eq_refl eq_refl eq_refl).
Defined.

Lemma X10_witness :
  expect_true "t" (tick 0) fresh =
    (Normal false,
     mk_Machine 1%nat
       (written
          (fail_line (self fresh) "t" ++
           "  expected value true, found false instead." ++ nl)
          (count Fail (self fresh)))).
Proof.
  exact (X10_expect_true_judges "t" (tick 0) fresh fresh fresh 0 1%nat
           eq_refl eq_refl eq_refl).
Defined.

Lemma X11_witness :
  expect_false "t" (tick 7) fresh =
    (Normal false,
     mk_Machine 1%nat
       (written
          (fail_line (self fresh) "t" ++
           "  expected value false, found true instead." ++ nl)
          (count Fail (self fresh)))).
Proof.
  exact (X11_expect_false_judges "t" (tick 7) fresh fresh fresh 7 1%nat
           eq_refl eq_refl eq_refl).
Defined.

Lemma X12_witness :
  expect_true "t" (throws (R:=bool) (logic_error "boom")) fresh =
    (Normal false,
     mk_Machine 0%nat
       (written
          (fail_line (self fresh) "t" ++
           "  expected value true, got exception: boom" ++ nl)
          (count Fail (self fresh)))).
Proof.
  exact (proj1 (X12_expect_true_false_catch
                  "t" (throws (R:=bool) (logic_error "boom"))
                  fresh fresh fresh (logic_error "boom") 0%nat
                  eq_refl eq_refl eq_refl)).
Defined.

Lemma X13_witness :
  expect_any_exception "e" (throws (R:=Z) thrown_int) fresh =
    (Normal true,
     mk_Machine 0%nat
       (written (pass_line (self fresh) "e") (count Pass (self fresh)))).
Proof.
  exact (X13_expect_any_exception_judges
           "e" (throws (R:=Z) thrown_int) fresh fresh (Throw thrown_int)
           0%nat eq_refl eq_refl).
Defined.

Lemma X15_witness :
  passed (expect_any_exception "e" (throws (R:=Z) (logic_error "x")) fresh)
  = true.
Proof.
  exact (X15_exception_implies_any_exception
           "std::exception" "e" (throws (R:=Z) (logic_error "x")) fresh
           eq_refl).
Defined.

Lemma X16_witness :
  passed (expect_in_range "r" 10 0 (tick 5) fresh) = false.
Proof.
  refine (X16_empty_range_never_passes (R:=Z) (T:=Z)
            "r" 10 0 (tick 5) fresh _ eq_refl).
  intros a b v Hav Hvb.
  apply Z.leb_le. apply Z.leb_le in Hav. apply Z.leb_le in Hvb.
  exact (Z.le_trans a v b Hav Hvb).
Defined.

Lemma X17_witness :
  snd (always (snd (only_if (Some only_a) fresh))) = fresh /\
  snd (show_pass (snd (hide_pass fresh))) = fresh.
Proof.
  split.
  - exact (proj1 (proj2 (proj2
             (X17_configuration_round_trips fresh (Some only_a) None true)))
             eq_refl).
  - exact (proj1 (proj2 (proj2 (proj2
             (X17_configuration_round_trips fresh (Some only_a) None true))))
             eq_refl).
Defined.

Lemma X18_witness :
  exists text,
    summary (snd (set_color false fresh)) =
      (Normal tt, with_self (written text) (snd (set_color false fresh))) /\
    mentions (ascii_of_nat 27) text = false.
Proof.
  exact (proj1 (X18_no_color_no_escape (snd (set_color false fresh))
                  eq_refl)).
Defined.

Lemma X19_witness :
  count_pass_
    (self (snd (expect_value "a" 2 (tick 2)
                  (mk_Machine 0%nat
                     (mk_UnitTester cout (UIntMax.modulus - 1) 0 0
                        true false None))))) = 0.
Proof.
  exact (proj1 (X19_count_pass_wraps "a"
                  (mk_Machine 0%nat
                     (mk_UnitTester cout (UIntMax.modulus - 1) 0 0
                        true false None))
                  (expect_value "a" 2 (tick 2)
                     (mk_Machine 0%nat
                        (mk_UnitTester cout (UIntMax.modulus - 1) 0 0
                           true false None)))
                  (call_expect_value "a" _ Z Z _ _ _ 2 (tick 2))
                  eq_refl eq_refl)).
Defined.
